(** * Learning-rate schedules of the notebook
      [12-week12/1-deep-learning-learning-schedules.ipynb]

    The notebook computes with floating-point numbers.  The development
    below reads every formula in exact real arithmetic: a Python [float]
    or a TensorFlow [float32] scalar is a real number of [R], a Python
    [int] is an integer of [Z].  An operation that has no finite real
    result (a division by zero, a power that is infinite, complex or
    not a number) yields [None]. *)

From Stdlib Require Import Reals Lra Lia ZArith String List Bool.
Import ListNotations.

Local Open Scope R_scope.

(** ** Partial real arithmetic *)

Module Py.

(** A small error monad: [None] is a raised exception (or, for tensor
    arithmetic, a value that is not a finite real). *)
Definition bind {A B : Type} (x : option A) (f : A -> option B) : option B :=
  match x with
  | Some a => f a
  | None => None
  end.

(** Truth value of a Python object, as used by [x or y]. *)
Class Truthy (A : Type) := truthy : A -> bool.

#[global] Instance Truthy_Z : Truthy Z := fun z => negb (Z.eqb z 0).
#[global] Instance Truthy_R : Truthy R :=
  fun r => if Req_dec_T r 0 then false else true.

(** [x or d] where [x] is an optional argument whose default is [None]:
    [None] and every falsy value give [d]. *)
Definition or_ {A : Type} `{Truthy A} (x : option A) (d : A) : A :=
  match x with
  | Some v => if truthy v then v else d
  | None => d
  end.

(** [x / y] on floats: [ZeroDivisionError] for a zero divisor. *)
Definition div (x y : R) : option R :=
  if Req_dec_T y 0 then None else Some (x / y).

(** [x ** y] on floats.  A positive base has the real power
    [exp (y * ln x)]; a zero base gives 0 for a positive exponent, 1
    for the exponent 0 and an error (infinity for tensors) for a
    negative one; a negative base has a real power only for an
    integral exponent. *)
Definition pow (x y : R) : option R :=
  if Rlt_dec 0 x then Some (Rpower x y)
  else if Req_dec_T x 0 then
    if Rlt_dec 0 y then Some 0
    else if Req_dec_T y 0 then Some 1 else None
  else if Req_dec_T y (IZR (Int_part y)) then Some (powerRZ x (Int_part y))
  else None.

(** [math.ceil(a / b)] for integers [a] and [b]: the true quotient
    rounded up; [ZeroDivisionError] for [b = 0]. *)
Definition ceil_div (a b : Z) : option Z :=
  if Z.eqb b 0 then None else Some (- ((- a) / b))%Z.

End Py.

Notation "x <- c1 ;; c2" := (Py.bind c1 (fun x => c2))
  (at level 61, c1 at next level, right associativity).
Notation "' pat <- c1 ;; c2" := (Py.bind c1 (fun x => match x with pat => c2 end))
  (at level 61, pat pattern, c1 at next level, right associativity).

(** ** The Keras objects the notebook drives *)

Module Keras.

Section Model.
Variables Weights Internals : Type.

(** A compiled model: the trainable weights ([get_weights],
    [set_weights]), the optimizer's learning-rate variable, and
    whatever else the framework keeps between batches (the optimizer's
    step counter, metric accumulators). *)
Record Model : Type := mkModel {
  weights : Weights;
  learning_rate : R;
  internals : Internals
}.

(** [model.optimizer.learning_rate.assign(lr)] *)
Definition assign_learning_rate (m : Model) (lr : R) : Model :=
  {| weights := weights m; learning_rate := lr; internals := internals m |}.

(** [model.set_weights(w)] *)
Definition set_weights (m : Model) (w : Weights) : Model :=
  {| weights := w; learning_rate := learning_rate m;
     internals := internals m |}.

End Model.

Arguments mkModel {Weights Internals}.
Arguments weights {Weights Internals}.
Arguments learning_rate {Weights Internals}.
Arguments internals {Weights Internals}.
Arguments assign_learning_rate {Weights Internals}.
Arguments set_weights {Weights Internals}.

(** The [logs] argument of a callback: [None], or a dict from metric
    names to values. *)
Definition Logs : Type := option (list (string * R)).

Fixpoint dict_get (d : list (string * R)) (k : string) : option R :=
  match d with
  | [] => None
  | (k', v) :: d' => if String.eqb k' k then Some v else dict_get d' k
  end.

(** [logs[k]]: [TypeError] on [None], [KeyError] on a missing key. *)
Definition getitem (logs : Logs) (k : string) : option R :=
  d <- logs ;; dict_get d k.

(** The hooks of [tf.keras.callbacks.Callback] that the notebook
    overrides.  A hook receives the callback object and the model it is
    attached to ([self.model]) and returns both, or raises. *)
Record Callback (S W I : Type) : Type := mkCallback {
  on_epoch_begin : S -> Model W I -> Z -> Logs -> option (S * Model W I);
  on_batch_begin : S -> Model W I -> Z -> Logs -> option (S * Model W I);
  on_batch_end : S -> Model W I -> Z -> Logs -> option (S * Model W I)
}.

Arguments mkCallback {S W I}.
Arguments on_epoch_begin {S W I}.
Arguments on_batch_begin {S W I}.
Arguments on_batch_end {S W I}.

(** Modelled from the spec: the hooks of the base class, which is library
    code, do nothing. *)
Definition pass {S W I : Type} (self : S) (model : Model W I) (_ : Z)
    (_ : Logs) : option (S * Model W I) :=
  Some (self, model).

Section Fit.
Variables S W I : Type.
Variable cb : Callback S W I.

(** One gradient step on batch [batch] of epoch [epoch]: the new
    weights, the new framework state and the loss of that batch. *)
Variable train_step : Z -> Z -> Model W I -> W * I * R.

(** Modelled from the spec: [Model.fit] is library code, absent from
    the repository.  Per epoch it calls [on_epoch_begin], then for
    each batch [on_batch_begin], one training step with the current
    learning rate, and [on_batch_end] with [logs["loss"]] the mean of
    the epoch's batch losses so far (the notebook: "keras only
    reports mean loss (over all batches thus far)").  [sum] is the sum
    of those losses, [batch] the index of the next batch.  Keras weights
    that mean by the number of samples of each batch; the two means
    agree when all batches have the same size. *)
Fixpoint fit_batches (n : nat) (epoch batch : Z) (sum : R) (s : S)
    (m : Model W I) : option (S * Model W I) :=
  match n with
  | O => Some (s, m)
  | Datatypes.S n' =>
      '(s1, m1) <- on_batch_begin cb s m batch (Some []) ;;
      let '(w, i, loss) := train_step epoch batch m1 in
      let m2 := mkModel w (learning_rate m1) i in
      let sum' := sum + loss in
      let logs := Some [("loss"%string, sum' / IZR (batch + 1))] in
      '(s3, m3) <- on_batch_end cb s1 m2 batch logs ;;
      fit_batches n' epoch (batch + 1) sum' s3 m3
  end.

(** Modelled from the spec: the epochs of [Model.fit], [n] of them from
    epoch number [epoch] on, each of [steps] batches. *)
Fixpoint fit_epochs (n : nat) (epoch : Z) (steps : nat) (s : S)
    (m : Model W I) : option (S * Model W I) :=
  match n with
  | O => Some (s, m)
  | Datatypes.S n' =>
      '(s1, m1) <- on_epoch_begin cb s m epoch None ;;
      '(s2, m2) <- fit_batches steps epoch 0 0 s1 m1 ;;
      fit_epochs n' (epoch + 1) steps s2 m2
  end.

(** Modelled from the spec: [model.fit(X, y, epochs=epochs,
    batch_size=batch_size, callbacks=[cb])] on [len_X] samples runs
    [epochs] epochs of [ceil(len_X / batch_size)] batches each; the batch
    size must be positive. *)
Definition fit (len_X epochs batch_size : Z) (s : S) (m : Model W I)
    : option (S * Model W I) :=
  if (batch_size <=? 0)%Z then None
  else
    steps <- Py.ceil_div len_X batch_size ;;
    fit_epochs (Z.to_nat epochs) 0 (Z.to_nat steps) s m.

End Fit.

Arguments fit_batches {S W I}.
Arguments fit_epochs {S W I}.
Arguments fit {S W I}.

Module ExponentialDecay.

Record t : Type := __init__ {
  initial_learning_rate : R;
  decay_steps : Z;
  decay_rate : R
}.

(** Modelled from the spec: [ExponentialDecay] is library code; the
    notebook states its formula as eta(t) = eta0 * gamma^(t/s). *)
Definition __call__ (self : t) (step : Z) : option R :=
  e <- Py.div (IZR step) (IZR (decay_steps self)) ;;
  p <- Py.pow (decay_rate self) e ;;
  Some (initial_learning_rate self * p).

End ExponentialDecay.

Module PiecewiseConstantDecay.

Record t : Type := __init__ {
  boundaries : list Z;
  values : list R
}.

(** Modelled from the spec: [PiecewiseConstantDecay] is library code; it
    yields [values[0]] up to and including [boundaries[0]],
    [values[i+1]] after [boundaries[i]] up to and including
    [boundaries[i+1]], and the last value after the last boundary. *)
Fixpoint select (bs : list Z) (vs : list R) (step : Z) : option R :=
  match bs, vs with
  | [], v :: _ => Some v
  | b :: bs', v :: vs' =>
      if (step <=? b)%Z then Some v else select bs' vs' step
  | _, [] => None
  end.

(** Modelled from the spec: there must be one more value than
    boundaries ([ValueError]). *)
Definition __call__ (self : t) (step : Z) : option R :=
  if Nat.eqb (length (values self)) (length (boundaries self) + 1)
  then select (boundaries self) (values self) step
  else None.

End PiecewiseConstantDecay.

End Keras.

(** ** Cell 24: [OneCycleScheduler] *)

Module OneCycleScheduler.
Import Keras.

Record t : Type := mk {
  iterations : Z;
  max_lr : R;
  start_lr : R;
  last_iterations : Z;
  half_iteration : Z;
  last_lr : R;
  iteration : Z
}.

(** The default of the argument [max_lr]. *)
Definition default_max_lr : R := 1 / 1000.

Definition __init__ (iterations : Z) (max_lr : R) (start_lr : option R)
    (last_iterations : option Z) (last_lr : option R) : t :=
  let start := Py.or_ start_lr (max_lr / 10) in
  let last_its := Py.or_ last_iterations (iterations / 10 + 1)%Z in
  {| iterations := iterations;
     max_lr := max_lr;
     start_lr := start;
     last_iterations := last_its;
     half_iteration := ((iterations - last_its) / 2)%Z;
     last_lr := Py.or_ last_lr (start / 1000);
     iteration := 0%Z |}.

Definition _interpolate (self : t) (iter1 iter2 : Z) (lr1 lr2 : R)
    : option R :=
  q <- Py.div ((lr2 - lr1) * IZR (iteration self - iter1))
              (IZR (iter2 - iter1)) ;;
  Some (q + lr1).

(** The local [lr] of [on_batch_begin]. *)
Definition batch_lr (self : t) : option R :=
  if (iteration self <? half_iteration self)%Z then
    _interpolate self 0 (half_iteration self) (start_lr self) (max_lr self)
  else if (iteration self <? 2 * half_iteration self)%Z then
    _interpolate self (half_iteration self) (2 * half_iteration self)
                 (max_lr self) (start_lr self)
  else
    _interpolate self (2 * half_iteration self) (iterations self)
                 (start_lr self) (last_lr self).

Definition set_iteration (self : t) (i : Z) : t :=
  {| iterations := iterations self;
     max_lr := max_lr self;
     start_lr := start_lr self;
     last_iterations := last_iterations self;
     half_iteration := half_iteration self;
     last_lr := last_lr self;
     iteration := i |}.

Definition on_batch_begin {W I : Type} (self : t) (model : Model W I)
    (batch : Z) (logs : Logs) : option (t * Model W I) :=
  lr <- batch_lr self ;;
  Some (set_iteration self (iteration self + 1), assign_learning_rate model lr).

(** [n] consecutive batches of a training run, as seen by the
    callback: [on_batch_begin] is called with batch numbers [batch],
    [batch + 1], ... *)
Fixpoint on_batches {W I : Type} (n : nat) (self : t) (model : Model W I)
    (batch : Z) : option (t * Model W I) :=
  match n with
  | O => Some (self, model)
  | S n' =>
      '(self1, model1) <- on_batch_begin self model batch None ;;
      on_batches n' self1 model1 (batch + 1)
  end.

(** The class as a Keras callback: only [on_batch_begin] is overridden. *)
Definition callback {W I : Type} : Callback t W I :=
  {| Keras.on_epoch_begin := pass;
     Keras.on_batch_begin := on_batch_begin;
     Keras.on_batch_end := pass |}.

End OneCycleScheduler.

(** ** Cell 14: [PowerScheduling] *)

Module PowerScheduling.

Record t : Type := __init__ {
  initial_learning_rate : R;
  decay_rate : R;
  step_param : R
}.

(** [tf.cast(step, tf.float32)] is the injection of the integer step
    into the reals. *)
Definition __call__ (self : t) (step : Z) : option R :=
  q <- Py.div (IZR step) (step_param self) ;;
  p <- Py.pow (1 + q) (decay_rate self) ;;
  Py.div (initial_learning_rate self) p.

End PowerScheduling.

(** ** Cell 3: [ExponentialLearningRate] *)

Module ExponentialLearningRate.
Import Keras.

(** [sum_of_epoch_losses] does not exist before the first
    [on_epoch_begin]; reading it then is an [AttributeError]. *)
Record t : Type := mk {
  factor : R;
  rates : list R;
  losses : list R;
  sum_of_epoch_losses : option R
}.

Definition __init__ (factor : R) : t :=
  {| factor := factor; rates := []; losses := [];
     sum_of_epoch_losses := None |}.

Definition on_epoch_begin {W I : Type} (self : t) (model : Model W I)
    (epoch : Z) (logs : Logs) : option (t * Model W I) :=
  Some ({| factor := factor self; rates := rates self;
           losses := losses self; sum_of_epoch_losses := Some 0 |},
        model).

Definition on_batch_end {W I : Type} (self : t) (model : Model W I)
    (batch : Z) (logs : Logs) : option (t * Model W I) :=
  mean_epoch_loss <- getitem logs "loss" ;;
  let new_sum_of_epoch_losses := mean_epoch_loss * IZR (batch + 1) in
  old_sum <- sum_of_epoch_losses self ;;
  let batch_loss := new_sum_of_epoch_losses - old_sum in
  let new_lr := learning_rate model * factor self in
  Some ({| factor := factor self;
           rates := rates self ++ [learning_rate model];
           losses := losses self ++ [batch_loss];
           sum_of_epoch_losses := Some new_sum_of_epoch_losses |},
        assign_learning_rate model new_lr).

(** The batches of one epoch as the callback sees them:
    [on_batch_end] for the batches [batch], [batch + 1], ... with
    [logs["loss"]] the successive values of [means]. *)
Fixpoint on_batches_end {W I : Type} (means : list R) (batch : Z)
    (self : t) (model : Model W I) : option (t * Model W I) :=
  match means with
  | [] => Some (self, model)
  | m :: means' =>
      '(self1, model1) <-
        on_batch_end self model batch (Some [("loss"%string, m)]) ;;
      on_batches_end means' (batch + 1) self1 model1
  end.

(** One epoch: [on_epoch_begin], then the batches from 0. *)
Definition on_epoch {W I : Type} (epoch : Z) (means : list R) (self : t)
    (model : Model W I) : option (t * Model W I) :=
  '(self1, model1) <- on_epoch_begin self model epoch None ;;
  on_batches_end means 0 self1 model1.

(** The class as a Keras callback: [on_batch_begin] is inherited. *)
Definition callback {W I : Type} : Callback t W I :=
  {| Keras.on_epoch_begin := on_epoch_begin;
     Keras.on_batch_begin := pass;
     Keras.on_batch_end := on_batch_end |}.

End ExponentialLearningRate.

(** ** Cell 5: [find_learning_rate] *)

Section FindLearningRate.
Import Keras.
Variables W I : Type.
Variable train_step : Z -> Z -> Model W I -> W * I * R.

(** The defaults of the keyword arguments. *)
Definition default_epochs : Z := 1.
Definition default_batch_size : Z := 32.
Definition default_min_rate : R := 1 / 10000.
Definition default_max_rate : R := 1.

(** [iterations = math.ceil(len(X) / batch_size) * epochs] *)
Definition probe_iterations (len_X epochs batch_size : Z) : option Z :=
  steps <- Py.ceil_div len_X batch_size ;;
  Some (steps * epochs)%Z.

(** [factor = (max_rate / min_rate) ** (1 / iterations)] *)
Definition probe_factor (iterations : Z) (min_rate max_rate : R)
    : option R :=
  ratio <- Py.div max_rate min_rate ;;
  e <- Py.div 1 (IZR iterations) ;;
  Py.pow ratio e.

(** The body of [find_learning_rate] up to and including the call of
    [model.fit]: the callback and the model as [fit] leaves them. *)
Definition find_learning_rate_fit (model : Model W I)
    (len_X epochs batch_size : Z) (min_rate max_rate : R)
    : option (ExponentialLearningRate.t * Model W I) :=
  iterations <- probe_iterations len_X epochs batch_size ;;
  factor <- probe_factor iterations min_rate max_rate ;;
  let model := assign_learning_rate model min_rate in
  let exp_lr := ExponentialLearningRate.__init__ factor in
  fit ExponentialLearningRate.callback train_step len_X epochs batch_size
      exp_lr model.

Definition find_learning_rate (model : Model W I)
    (len_X epochs batch_size : Z) (min_rate max_rate : R)
    : option (Model W I * (list R * list R)) :=
  let init_weights := weights model in
  let init_lr := learning_rate model in
  '(exp_lr, model) <- find_learning_rate_fit model len_X epochs batch_size
                                            min_rate max_rate ;;
  let model := assign_learning_rate model init_lr in
  let model := set_weights model init_weights in
  Some (model, (ExponentialLearningRate.rates exp_lr,
                ExponentialLearningRate.losses exp_lr)).

End FindLearningRate.

Arguments find_learning_rate_fit {W I}.
Arguments find_learning_rate {W I}.

(** ** Cells 16 and 18: the schedules the notebook instantiates *)

Section Notebook.
Import Keras.

(** [len(X_train)]: the size of the training set the notebook loads. *)
Variable len_X_train : Z.

(** The globals of cell 16; [batch_size] is still 32 in cell 18. *)
Definition n_epochs : Z := 10.
Definition batch_size : Z := 32.

(** [n_steps = n_epochs * math.ceil(len(X_train) / batch_size)] *)
Definition n_steps : option Z :=
  steps <- Py.ceil_div len_X_train batch_size ;;
  Some (n_epochs * steps)%Z.

Definition lr0 : R := 1 / 10.

(** Cell 16: [ExponentialDecay(initial_learning_rate=lr0,
    decay_steps=n_steps, decay_rate=.95)] *)
Definition exponential_lr_schedule : option ExponentialDecay.t :=
  n <- n_steps ;;
  Some (ExponentialDecay.__init__ lr0 n (95 / 100)).

(** Cell 18. *)
Definition epoch_steps : option Z := Py.ceil_div len_X_train batch_size.

Definition b1 : option Z := e <- epoch_steps ;; Some (e * 3)%Z.

Definition b2 : option Z :=
  b <- b1 ;; e <- epoch_steps ;; Some (b + e * 3)%Z.

Definition piecewise_lr_schedule : option PiecewiseConstantDecay.t :=
  x1 <- b1 ;;
  x2 <- b2 ;;
  Some (PiecewiseConstantDecay.__init__ [x1; x2]
          [1 / 10; 5 / 100; 5 / 1000]).

End Notebook.

(** ** Cell 1: the split of the training data *)

Module PySeq.

(** The position a slice bound [k] denotes in a sequence of length [n]:
    a negative bound counts from the end, and every bound is clamped to
    [0..n]. *)
Definition slice_index (n : nat) (k : Z) : nat :=
  Z.to_nat (Z.min (Z.of_nat n) (if (k <? 0)%Z then Z.max 0 (k + Z.of_nat n)
                                else k)).

(** [l[:k]] *)
Definition slice_to {A : Type} (k : Z) (l : list A) : list A :=
  firstn (slice_index (length l) k) l.

(** [l[k:]] *)
Definition slice_from {A : Type} (k : Z) (l : list A) : list A :=
  skipn (slice_index (length l) k) l.

(** The running minimum of [min(l)]: a later item replaces the current
    one when it is smaller. *)
Fixpoint min_from (m : R) (l : list R) : R :=
  match l with
  | [] => m
  | x :: l' => min_from (if Rlt_dec x m then x else m) l'
  end.

(** [min(l)]: [ValueError] on the empty list. *)
Definition min (l : list R) : option R :=
  match l with
  | [] => None
  | x :: l' => Some (min_from x l')
  end.

Fixpoint max_from (m : R) (l : list R) : R :=
  match l with
  | [] => m
  | x :: l' => max_from (if Rlt_dec m x then x else m) l'
  end.

(** [max(l)]: [ValueError] on the empty list. *)
Definition max (l : list R) : option R :=
  match l with
  | [] => None
  | x :: l' => Some (max_from x l')
  end.

End PySeq.

(** [X_train, X_valid = X_train_full[:-5000], X_train_full[-5000:]], on
    the first axis of the array. *)
Definition train_valid_split {A : Type} (X_train_full : list A)
    : list A * list A :=
  (PySeq.slice_to (-5000) X_train_full, PySeq.slice_from (-5000) X_train_full).

(** ** Cell 7: [plot_lr_vs_loss] *)

(** What the function hands to matplotlib: the points of the curve, the
    horizontal line [(y, xmin, xmax)] and the axis limits
    [(xmin, xmax, ymin, ymax)].  The logarithmic scale, the labels and the
    grid do not depend on the data. *)
Record Figure : Type := mkFigure {
  curve : list (R * R);
  hline : R * R * R;
  axis : R * R * R * R
}.

(** [plt.plot] is library code: it refuses two sequences of different
    lengths ([ValueError]).  [losses[0]] is an [IndexError] on the empty
    list. *)
Definition plot_lr_vs_loss (rates losses : list R) : option Figure :=
  if Nat.eqb (length rates) (length losses) then
    first_loss <- nth_error losses 0 ;;
    min_loss <- PySeq.min losses ;;
    let max_loss := first_loss + min_loss in
    min_rate <- PySeq.min rates ;;
    max_rate <- PySeq.max rates ;;
    Some {| curve := combine rates losses;
            hline := (min_loss, min_rate, max_rate);
            axis := (min_rate, max_rate, 0, max_loss) |}
  else None.

(** ** The formulas the schedules are compared with *)

(** The straight line through [(x1, y1)] and [(x2, y2)], at [x]. *)
Definition line_through (x1 : Z) (y1 : R) (x2 : Z) (y2 : R) (x : Z) : R :=
  y1 + (y2 - y1) * (IZR (x - x1) / IZR (x2 - x1)).

(** The power schedule eta(t) = eta0 / (1 + t/s)^c. *)
Definition power_schedule (eta0 s c t : R) : R :=
  eta0 / Rpower (1 + t / s) c.

(** The sum of a list of losses. *)
Definition total (ls : list R) : R := fold_right Rplus 0 ls.

(** The mean of the losses of batches [0..b]. *)
Definition mean_upto (ls : list R) (b : nat) : R :=
  total (firstn (b + 1) ls) / INR (b + 1).

(** What Keras reports after each batch of an epoch whose batches have
    the losses [ls]: the running means. *)
Definition running_means (ls : list R) : list R :=
  map (mean_upto ls) (seq 0 (length ls)).

(** The geometric progression [a; a * f; ...; a * f^(n-1)]. *)
Definition geometric (a f : R) (n : nat) : list R :=
  map (fun k => a * f ^ k) (seq 0 n).

(** The rate a scheduler assigns when its counter is [i]. *)
Definition rate_at (s : OneCycleScheduler.t) (i : Z) : option R :=
  OneCycleScheduler.batch_lr (OneCycleScheduler.set_iteration s i).

Section TrainingLosses.
Variables W I : Type.
Variable train_step : Z -> Z -> Keras.Model W I -> W * I * R.

(** The losses of [n] consecutive training steps of epoch [epoch], from
    batch [batch] on, when the rate is multiplied by [f] after each step. *)
Fixpoint epoch_losses (f : R) (n : nat) (epoch batch : Z)
    (m : Keras.Model W I) : list R * Keras.Model W I :=
  match n with
  | O => ([], m)
  | S n' =>
      let '(w, i, loss) := train_step epoch batch m in
      let m' := Keras.mkModel w (Keras.learning_rate m * f) i in
      let '(ls, m'') := epoch_losses f n' epoch (batch + 1) m' in
      (loss :: ls, m'')
  end.

(** The losses of [n] epochs of [steps] training steps each. *)
Fixpoint run_losses (f : R) (n : nat) (epoch : Z) (steps : nat)
    (m : Keras.Model W I) : list R * Keras.Model W I :=
  match n with
  | O => ([], m)
  | S n' =>
      let '(ls, m') := epoch_losses f steps epoch 0 m in
      let '(ls', m'') := run_losses f n' (epoch + 1) steps m' in
      (ls ++ ls', m'')
  end.

End TrainingLosses.

Arguments epoch_losses {W I}.
Arguments run_losses {W I}.

(** A training step that learns nothing, for running the definitions on
    concrete inputs: every batch has the loss 1. *)
Definition idle_step (_ _ : Z) (m : Keras.Model unit unit) : unit * unit * R :=
  (tt, tt, 1).

(** A training step that changes the model: every step moves the weights
    and advances the framework's step counter; every batch has the loss
    1. *)
Definition counting_step (_ _ : Z) (m : Keras.Model nat nat) : nat * nat * R :=
  (S (Keras.weights m), S (Keras.internals m), 1).

(** * Properties *)

(** ** Partial arithmetic *)

Lemma div_defined (x y : R) : y <> 0 -> Py.div x y = Some (x / y).
Proof.
  intros Hy. unfold Py.div. destruct (Req_dec_T y 0) as [E | _].
  - contradiction.
  - reflexivity.
Qed.

Lemma div_by_zero (x : R) : Py.div x 0 = None.
Proof.
  unfold Py.div. destruct (Req_dec_T 0 0) as [_ | N].
  - reflexivity.
  - exfalso. apply N. reflexivity.
Qed.

Lemma pow_positive_base (x y : R) : 0 < x -> Py.pow x y = Some (Rpower x y).
Proof.
  intros Hx. unfold Py.pow. destruct (Rlt_dec 0 x) as [_ | N].
  - reflexivity.
  - contradiction.
Qed.

Lemma ceil_div_positive (a b : Z) :
  (0 < a)%Z -> (0 < b)%Z ->
  exists q, Py.ceil_div a b = Some q /\ (0 < q)%Z /\ (a <= q * b < a + b)%Z.
Proof.
  intros Ha Hb. unfold Py.ceil_div.
  destruct (Z.eqb_spec b 0) as [E | _]; [lia |].
  exists (- (- a / b))%Z. split; [reflexivity |].
  pose proof (Z.div_mod (- a) b ltac:(lia)) as Hdm.
  pose proof (Z.mod_pos_bound (- a) b Hb) as Hm.
  nia.
Qed.

Lemma IZR_neq0 (z : Z) : z <> 0%Z -> IZR z <> 0.
Proof. intros H E. apply H. now apply eq_IZR_R0. Qed.

(** ** [OneCycleScheduler] *)

Section OneCycle.
Import Keras OneCycleScheduler.

Lemma interpolate_line (self : t) (iter1 iter2 : Z) (lr1 lr2 : R) :
  iter1 <> iter2 ->
  _interpolate self iter1 iter2 lr1 lr2
  = Some (line_through iter1 lr1 iter2 lr2 (iteration self)).
Proof.
  intros Hne. unfold _interpolate, line_through.
  rewrite div_defined by (apply IZR_neq0; lia).
  simpl. f_equal. field. apply IZR_neq0. lia.
Qed.

Lemma interpolate_flat (self : t) (iter1 : Z) (lr1 lr2 : R) :
  _interpolate self iter1 iter1 lr1 lr2 = None.
Proof.
  unfold _interpolate. rewrite Z.sub_diag. now rewrite div_by_zero.
Qed.

Lemma line_through_left (x1 : Z) (y1 : R) (x2 : Z) (y2 : R) :
  line_through x1 y1 x2 y2 x1 = y1.
Proof.
  unfold line_through. rewrite Z.sub_diag. unfold Rdiv. ring.
Qed.

Lemma line_through_right (x1 : Z) (y1 : R) (x2 : Z) (y2 : R) :
  x1 <> x2 -> line_through x1 y1 x2 y2 x2 = y2.
Proof.
  intros Hne. unfold line_through. field. apply IZR_neq0. lia.
Qed.

Lemma default_last_iterations (its : Z) (max_lr : R)
    (start_lr last_lr : option R) :
  let s := __init__ its max_lr start_lr None last_lr in
  iterations s = its /\
  last_iterations s = (its / 10 + 1)%Z /\
  half_iteration s = ((its - (its / 10 + 1)) / 2)%Z /\
  iteration s = 0%Z.
Proof. repeat split. Qed.

Lemma default_half_iteration_bounds (its : Z) :
  (1 <= its)%Z ->
  (0 <= (its - (its / 10 + 1)) / 2)%Z /\
  (1 <= its - 2 * ((its - (its / 10 + 1)) / 2))%Z.
Proof.
  intros Hits.
  assert (Hq : (0 <= its / 10 /\ 10 * (its / 10) <= its)%Z).
  { pose proof (Z.div_mod its 10 ltac:(lia)).
    pose proof (Z.mod_pos_bound its 10 ltac:(lia)). lia. }
  pose proof (Z.div_mod (its - (its / 10 + 1)) 2 ltac:(lia)) as Hdm.
  pose proof (Z.mod_pos_bound (its - (its / 10 + 1)) 2 ltac:(lia)) as Hm.
  lia.
Qed.

(** C10: with [last_iterations] left at its default and
    [iterations >= 1], at every iteration counter [i >= 0] the first two
    branches of [on_batch_begin] are entered only when
    [half_iteration >= 1] (their divisor), the divisor of the third
    branch, [iterations - 2 * half_iteration], is at least 1, and
    [on_batch_begin] returns without a division by zero. *)
Theorem default_one_cycle_never_divides_by_zero
    (W I : Type) (its : Z) (max_lr : R) (start_lr last_lr : option R)
    (i : Z) (model : Model W I) (batch : Z) (logs : Logs) :
  (1 <= its)%Z -> (0 <= i)%Z ->
  let s := set_iteration (__init__ its max_lr start_lr None last_lr) i in
  last_iterations s = (its / 10 + 1)%Z /\
  half_iteration s = ((its - last_iterations s) / 2)%Z /\
  ((i < half_iteration s)%Z -> (1 <= half_iteration s - 0)%Z) /\
  ((i < 2 * half_iteration s)%Z ->
   (1 <= 2 * half_iteration s - half_iteration s)%Z) /\
  (1 <= iterations s - 2 * half_iteration s)%Z /\
  exists lr,
    on_batch_begin s model batch logs
    = Some (set_iteration s (i + 1), assign_learning_rate model lr).
Proof.
  intros Hits Hi s.
  destruct (default_half_iteration_bounds its Hits) as [Hh Hd].
  assert (Ehalf : half_iteration s = ((its - (its / 10 + 1)) / 2)%Z)
    by reflexivity.
  assert (Eits : iterations s = its) by reflexivity.
  assert (Ei : iteration s = i) by reflexivity.
  split; [reflexivity |]. split; [reflexivity |].
  rewrite Ehalf, Eits.
  split; [lia |]. split; [lia |]. split; [lia |].
  unfold on_batch_begin, batch_lr. rewrite Ehalf, Eits, Ei.
  destruct (Z.ltb_spec i ((its - (its / 10 + 1)) / 2)) as [H1 | H1].
  - rewrite interpolate_line by lia. simpl. eexists. reflexivity.
  - destruct (Z.ltb_spec i (2 * ((its - (its / 10 + 1)) / 2))) as [H2 | H2].
    + rewrite interpolate_line by lia. simpl. eexists. reflexivity.
    + rewrite interpolate_line by lia. simpl. eexists. reflexivity.
Qed.

Lemma batch_lr_branches (s : t) :
  ((iteration s < 2 * half_iteration s)%Z -> half_iteration s <> 0%Z) ->
  ((2 * half_iteration s <= iteration s)%Z ->
   iterations s <> (2 * half_iteration s)%Z) ->
  batch_lr s
  = Some (if (iteration s <? half_iteration s)%Z then
            line_through 0 (start_lr s) (half_iteration s) (max_lr s)
                         (iteration s)
          else if (iteration s <? 2 * half_iteration s)%Z then
            line_through (half_iteration s) (max_lr s)
                         (2 * half_iteration s) (start_lr s) (iteration s)
          else
            line_through (2 * half_iteration s) (start_lr s)
                         (iterations s) (last_lr s) (iteration s)).
Proof.
  intros H12 H3. unfold batch_lr.
  destruct (Z.ltb_spec (iteration s) (half_iteration s)) as [H1 | H1].
  - apply interpolate_line. lia.
  - destruct (Z.ltb_spec (iteration s) (2 * half_iteration s)) as [H2 | H2].
    + apply interpolate_line. lia.
    + apply interpolate_line. lia.
Qed.

(** C4 (amended): when [0 < half_iteration] and
    [2 * half_iteration < iterations], [on_batch_begin] at iteration
    counter [i] assigns the rate of the piecewise-linear curve through
    [(0, start_lr)], [(half_iteration, max_lr)],
    [(2 * half_iteration, start_lr)] and [(iterations, last_lr)], and
    increments the counter by one. *)
Theorem one_cycle_piecewise_linear
    (W I : Type) (s : t) (model : Model W I) (batch : Z) (logs : Logs) :
  (0 < half_iteration s)%Z ->
  (2 * half_iteration s < iterations s)%Z ->
  let i := iteration s in
  let half := half_iteration s in
  exists lr,
    on_batch_begin s model batch logs
    = Some (set_iteration s (i + 1), assign_learning_rate model lr) /\
    iteration (set_iteration s (i + 1)) = (i + 1)%Z /\
    ((0 <= i <= half)%Z ->
     lr = line_through 0 (start_lr s) half (max_lr s) i) /\
    ((half <= i <= 2 * half)%Z ->
     lr = line_through half (max_lr s) (2 * half) (start_lr s) i) /\
    ((2 * half <= i <= iterations s)%Z ->
     lr = line_through (2 * half) (start_lr s) (iterations s) (last_lr s) i) /\
    (i = 0%Z -> lr = start_lr s) /\
    (i = half -> lr = max_lr s) /\
    (i = (2 * half)%Z -> lr = start_lr s) /\
    (i = iterations s -> lr = last_lr s).
Proof.
  intros Hhalf Hlast i half.
  unfold on_batch_begin. rewrite batch_lr_branches by (fold half; lia).
  fold i half. cbn [Py.bind]. eexists. split; [reflexivity |].
  split; [reflexivity |].
  assert (Hknot1 : line_through 0 (start_lr s) half (max_lr s) half
                   = max_lr s) by (apply line_through_right; lia).
  assert (Hknot2 : line_through half (max_lr s) (2 * half) (start_lr s)
                     (2 * half) = start_lr s)
    by (apply line_through_right; lia).
  destruct (Z.ltb_spec i half) as [H1 | H1];
    [| destruct (Z.ltb_spec i (2 * half)) as [H2 | H2]].
  - repeat split; intros Hi; try lia; try reflexivity.
    subst i. rewrite Hi. apply line_through_left.
  - repeat split; intros Hi; try lia; try reflexivity.
    + assert (E : i = half) by lia. rewrite E, Hknot1.
      apply line_through_left.
    + rewrite Hi. apply line_through_left.
  - repeat split; intros Hi; try lia; try reflexivity.
    + assert (E : i = (2 * half)%Z) by lia. rewrite E, Hknot2.
      apply line_through_left.
    + rewrite Hi. apply line_through_left.
    + rewrite Hi. apply line_through_right. lia.
Qed.

Lemma one_cycle_piecewise_linear_witness :
  let s := set_iteration (__init__ 25 1 None None None) 11 in
  exists lr,
    on_batch_begin s (mkModel tt 0 tt) 11 None
    = Some (set_iteration s (11 + 1),
            assign_learning_rate (mkModel tt 0 tt) lr) /\
    lr = line_through 0 (1 / 10) 11 1 11.
Proof.
  destruct (one_cycle_piecewise_linear unit unit
              (set_iteration (__init__ 25 1 None None None) 11)
              (mkModel tt 0 tt) 11 None)
    as [lr [Hcall [_ [Hrise _]]]].
  - simpl. Z.div_mod_to_equations. lia.
  - simpl. Z.div_mod_to_equations. lia.
  - exists lr. split; [exact Hcall |]. apply Hrise. simpl.
    Z.div_mod_to_equations. lia.
Defined.

Lemma set_iteration_same (s : t) : set_iteration s (iteration s) = s.
Proof. destruct s. reflexivity. Qed.

(** While the counter stays below [2 * half_iteration], every batch
    succeeds and adds one to it. *)
Lemma on_batches_first_two_segments (W I : Type) (n : nat) :
  forall (s : t) (m : Model W I) (b : Z),
    (iteration s + Z.of_nat n <= 2 * half_iteration s)%Z ->
    (0 < half_iteration s)%Z ->
    exists m',
      on_batches n s m b
      = Some (set_iteration s (iteration s + Z.of_nat n), m').
Proof.
  induction n as [| n IH]; intros s m b Hle Hhalf.
  - exists m. simpl. rewrite Z.add_0_r, set_iteration_same. reflexivity.
  - cbn [on_batches]. unfold on_batch_begin.
    rewrite batch_lr_branches by lia. cbn [Py.bind].
    match goal with
    | |- context [assign_learning_rate m ?lr] =>
        destruct (IH (set_iteration s (iteration s + 1))
                     (assign_learning_rate m lr) (b + 1)%Z)
          as [m' Hm']
    end.
    + cbn [iteration half_iteration set_iteration]. lia.
    + exact Hhalf.
    + exists m'. rewrite Hm'. unfold set_iteration.
      cbn [iteration half_iteration iterations max_lr start_lr last_lr
           last_iterations].
      do 3 f_equal. lia.
Qed.

(** C4, as stated, fails: [OneCycleScheduler(10, max_lr=1,
    last_iterations=-1)] has [half_iteration = 5 > 0]; its first ten
    batches succeed and bring the counter to
    [2 * half_iteration = iterations = 10], where [on_batch_begin]
    divides by [iterations - 2 * half_iteration = 0] and assigns no
    rate, so the rate there is not [start_lr]. *)
Lemma one_cycle_as_stated_counterexample :
  let s := __init__ 10 1 None (Some (-1)%Z) None in
  (0 < half_iteration s)%Z /\
  exists (s' : t) (m' : Model unit unit),
    on_batches 10 s (mkModel tt 0 tt) 0 = Some (s', m') /\
    iteration s' = (2 * half_iteration s')%Z /\
    half_iteration s' = half_iteration s /\
    batch_lr s' <> Some (start_lr s') /\
    on_batch_begin s' m' 10 None = None.
Proof.
  intros s.
  assert (Hhalf : half_iteration s = 5%Z) by reflexivity.
  split; [rewrite Hhalf; lia |].
  destruct (on_batches_first_two_segments unit unit 10 s (mkModel tt 0 tt) 0)
    as [m' Hm'].
  - rewrite Hhalf. simpl. lia.
  - rewrite Hhalf. lia.
  - exists (set_iteration s (iteration s + Z.of_nat 10)), m'.
    assert (Hnone : batch_lr (set_iteration s (iteration s + Z.of_nat 10))
                    = None).
    { unfold batch_lr.
      change (iteration (set_iteration s (iteration s + Z.of_nat 10)))
        with 10%Z.
      change (half_iteration (set_iteration s (iteration s + Z.of_nat 10)))
        with 5%Z.
      change (iterations (set_iteration s (iteration s + Z.of_nat 10)))
        with 10%Z.
      change (10 <? 5)%Z with false. change (2 * 5)%Z with 10%Z.
      change (10 <? 10)%Z with false. cbv iota.
      apply interpolate_flat. }
    split; [exact Hm' |]. split; [reflexivity |]. split; [reflexivity |].
    split.
    + rewrite Hnone. discriminate.
    + unfold on_batch_begin. rewrite Hnone. reflexivity.
Qed.

Lemma default_one_cycle_never_divides_by_zero_witness :
  let s := set_iteration (__init__ 25 1 None None None) 12 in
  last_iterations s = (25 / 10 + 1)%Z /\
  half_iteration s = ((25 - last_iterations s) / 2)%Z /\
  ((12 < half_iteration s)%Z -> (1 <= half_iteration s - 0)%Z) /\
  ((12 < 2 * half_iteration s)%Z ->
   (1 <= 2 * half_iteration s - half_iteration s)%Z) /\
  (1 <= iterations s - 2 * half_iteration s)%Z /\
  exists lr,
    on_batch_begin s (mkModel tt 0 tt) 12 None
    = Some (set_iteration s (12 + 1), assign_learning_rate (mkModel tt 0 tt) lr).
Proof.
  apply (default_one_cycle_never_divides_by_zero unit unit 25 1 None None
           12 (mkModel tt 0 tt) 12 None); lia.
Defined.

End OneCycle.

(** ** [PowerScheduling] *)

Section Power.
Import PowerScheduling.

Lemma power_base_positive (s : R) (step : Z) :
  (0 <= step)%Z -> 0 < s -> 0 < 1 + IZR step / s.
Proof.
  intros Hstep Hs.
  assert (0 <= IZR step) by (apply IZR_le in Hstep; exact Hstep).
  assert (0 <= IZR step / s).
  { unfold Rdiv. apply Rmult_le_pos; [assumption |].
    left. now apply Rinv_0_lt_compat. }
  lra.
Qed.

(** C1: for a step [t >= 0] (and a positive [step_param], so that the
    formula denotes a real number), [__call__] returns
    [initial_learning_rate / (1 + t / step_param) ** decay_rate], the
    power schedule eta0 / (1 + t/s)^c; for a decay rate that is a
    natural number [n] this is the quotient by the [n]-th power. *)
Theorem power_scheduling_formula (self : t) (step : Z) :
  (0 <= step)%Z -> 0 < step_param self ->
  __call__ self step
  = Some (power_schedule (initial_learning_rate self) (step_param self)
                         (decay_rate self) (IZR step)) /\
  forall n : nat,
    decay_rate self = INR n ->
    __call__ self step
    = Some (initial_learning_rate self
            / (1 + IZR step / step_param self) ^ n).
Proof.
  intros Hstep Hs.
  pose proof (power_base_positive _ _ Hstep Hs) as Hbase.
  assert (Hcall : __call__ self step
                  = Some (power_schedule (initial_learning_rate self)
                            (step_param self) (decay_rate self) (IZR step))).
  { unfold __call__, power_schedule.
    rewrite div_defined by lra. cbn [Py.bind].
    rewrite pow_positive_base by exact Hbase. cbn [Py.bind].
    apply div_defined. unfold Rpower.
    pose proof (exp_pos (decay_rate self * ln (1 + IZR step / step_param self))).
    lra. }
  split; [exact Hcall |].
  intros n Hn. rewrite Hcall. unfold power_schedule.
  rewrite Hn, Rpower_pow by exact Hbase. reflexivity.
Qed.

Lemma power_scheduling_formula_witness :
  __call__ (__init__ (1 / 10) 1 1000) 500
  = Some (power_schedule (1 / 10) 1000 1 500).
Proof.
  apply (power_scheduling_formula (__init__ (1 / 10) 1 1000) 500).
  - lia.
  - simpl. lra.
Defined.

End Power.

(** ** [ExponentialLearningRate]: the per-batch loss *)

Section BatchLoss.
Import Keras ExponentialLearningRate.

Lemma getitem_loss (m : R) :
  getitem (Some [("loss"%string, m)]) "loss" = Some m.
Proof. reflexivity. Qed.

Lemma total_firstn_succ (ls : list R) :
  forall k : nat,
    (k < length ls)%nat ->
    total (firstn (S k) ls) = total (firstn k ls) + nth k ls 0.
Proof.
  induction ls as [| l ls IH]; intros k Hk.
  - simpl in Hk. lia.
  - destruct k as [| k].
    + simpl. ring.
    + simpl in Hk. change (firstn (S (S k)) (l :: ls))
        with (l :: firstn (S k) ls).
      change (firstn (S k) (l :: ls)) with (l :: firstn k ls).
      change (nth (S k) (l :: ls) 0) with (nth k ls 0).
      unfold total in *. cbn [fold_right].
      rewrite IH by lia. ring.
Qed.

Lemma nth_running_means (ls : list R) (k : nat) :
  (k < length ls)%nat -> nth k (running_means ls) 0 = mean_upto ls k.
Proof.
  intros Hk. unfold running_means.
  rewrite (nth_indep _ 0 (mean_upto ls 0%nat))
    by (rewrite length_map, length_seq; exact Hk).
  rewrite map_nth, seq_nth by exact Hk. reflexivity.
Qed.

Lemma mean_upto_times (ls : list R) (b : nat) :
  mean_upto ls b * INR (b + 1) = total (firstn (b + 1) ls).
Proof.
  unfold mean_upto. field. apply not_0_INR. lia.
Qed.

(** The batches of an epoch, started at batch [b] with the sum [prev]
    of the losses so far. *)
Lemma on_batches_end_losses (W I : Type) (ms : list R) :
  forall (b : nat) (self : t) (model : Model W I) (prev : R),
    sum_of_epoch_losses self = Some prev ->
    exists (self' : t) (model' : Model W I) (appended : list R),
      on_batches_end ms (Z.of_nat b) self model = Some (self', model') /\
      losses self' = losses self ++ appended /\
      length appended = length ms /\
      forall k : nat,
        (k < length ms)%nat ->
        nth k appended 0
        = nth k ms 0 * INR (b + k + 1)
          - match k with
            | O => prev
            | S k' => nth k' ms 0 * INR (b + k)
            end.
Proof.
  induction ms as [| m ms IH]; intros b self model prev Hsum.
  - exists self, model, []. simpl. rewrite app_nil_r.
    repeat split. intros k Hk. lia.
  - cbn [on_batches_end]. unfold on_batch_end.
    rewrite getitem_loss, Hsum. cbn [Py.bind].
    replace (Z.of_nat b + 1)%Z with (Z.of_nat (S b)) by lia.
    rewrite <- INR_IZR_INZ.
    match goal with
    | |- context [on_batches_end ms _ ?s1 ?m1] =>
        destruct (IH (S b) s1 m1 (m * INR (S b)) eq_refl)
          as (self' & model' & appended & Hrun & Hlosses & Hlen & Hnth)
    end.
    exists self', model', ((m * INR (S b) - prev) :: appended).
    split; [exact Hrun |]. split.
    { rewrite Hlosses. cbn [losses]. rewrite <- app_assoc. reflexivity. }
    split; [simpl; now rewrite Hlen |].
    intros k Hk. destruct k as [| k].
    + cbn [nth]. replace (b + 0 + 1)%nat with (S b) by lia. reflexivity.
    + cbn [nth]. simpl in Hk. rewrite Hnth by lia.
      replace (S b + k + 1)%nat with (b + S k + 1)%nat by lia.
      destruct k as [| k].
      * replace (b + 1)%nat with (S b) by lia. reflexivity.
      * replace (S b + S k)%nat with (b + S (S k))%nat by lia. reflexivity.
Qed.

(** C2: in an epoch that starts with [on_epoch_begin] and reports, at
    the end of batch [b = 0, 1, ...], the mean loss [m_b], the callback
    appends for batch [b] the loss [m_b * (b + 1) - m_(b-1) * b] (the
    second term is 0 for [b = 0]); when the [m_b] are the running means
    of the batch losses [ls], the appended losses are [ls] themselves. *)
Theorem batch_loss_bookkeeping (W I : Type) (self : t) (model : Model W I)
    (epoch : Z) (ms : list R) :
  exists (self' : t) (model' : Model W I) (appended : list R),
    on_epoch epoch ms self model = Some (self', model') /\
    losses self' = losses self ++ appended /\
    length appended = length ms /\
    (forall b : nat,
       (b < length ms)%nat ->
       nth b appended 0
       = nth b ms 0 * INR (b + 1) - nth (b - 1) ms 0 * INR b) /\
    (forall ls : list R, ms = running_means ls -> appended = ls).
Proof.
  unfold on_epoch, on_epoch_begin. cbn [Py.bind].
  match goal with
  | |- context [on_batches_end ms 0 ?s1 ?m1] =>
      destruct (on_batches_end_losses W I ms 0 s1 m1 0 eq_refl)
        as (self' & model' & appended & Hrun & Hlosses & Hlen & Hnth)
  end.
  exists self', model', appended.
  split; [exact Hrun |]. split; [exact Hlosses |]. split; [exact Hlen |].
  assert (Hform : forall b : nat,
             (b < length ms)%nat ->
             nth b appended 0
             = nth b ms 0 * INR (b + 1) - nth (b - 1) ms 0 * INR b).
  { intros b Hb. rewrite Hnth by exact Hb. destruct b as [| b].
    - change (INR 0) with 0. simpl (0 + 0 + 1)%nat. simpl (0 + 1)%nat. ring.
    - replace (S b - 1)%nat with b by lia.
      replace (0 + S b + 1)%nat with (S b + 1)%nat by lia.
      replace (0 + S b)%nat with (S b) by lia. reflexivity. }
  split; [exact Hform |].
  intros ls Hms.
  assert (Hlen' : length ms = length ls).
  { rewrite Hms. unfold running_means. now rewrite length_map, length_seq. }
  apply (nth_ext _ _ 0 0); [congruence |].
  intros b Hb. rewrite Hlen, Hlen' in Hb.
  rewrite Hform by lia. rewrite Hms.
  rewrite nth_running_means by exact Hb.
  rewrite mean_upto_times.
  replace (b + 1)%nat with (S b) by lia.
  rewrite total_firstn_succ by exact Hb.
  destruct b as [| b].
  - change (INR 0) with 0. simpl (firstn 0 ls). unfold total at 1.
    simpl (fold_right Rplus 0 []). ring.
  - replace (S b - 1)%nat with b by lia.
    rewrite nth_running_means by lia.
    replace (INR (S b)) with (INR (b + 1)) by (f_equal; lia).
    rewrite mean_upto_times.
    replace (b + 1)%nat with (S b) by lia. ring.
Qed.

Lemma batch_loss_bookkeeping_witness :
  exists (self' : t) (model' : Model unit unit),
    on_epoch 0 (running_means [2; 4]) (__init__ 3) (mkModel tt 1 tt)
    = Some (self', model') /\
    losses self' = [2; 4].
Proof.
  destruct (batch_loss_bookkeeping unit unit (__init__ 3) (mkModel tt 1 tt)
              0 (running_means [2; 4]))
    as (self' & model' & appended & Hrun & Hlosses & _ & _ & Hmeans).
  exists self', model'. split; [exact Hrun |].
  rewrite Hlosses. rewrite (Hmeans [2; 4] eq_refl). reflexivity.
Defined.

End BatchLoss.

(** ** The learning-rate range test *)

Section GeometricProgression.

Lemma geometric_cons (a f : R) (n : nat) :
  geometric a f (S n) = a :: geometric (a * f) f n.
Proof.
  unfold geometric. rewrite <- cons_seq, <- seq_shift.
  cbn [map]. rewrite map_map. f_equal.
  - simpl. ring.
  - apply map_ext. intros k. simpl. ring.
Qed.

Lemma geometric_app (f : R) (n m : nat) :
  forall a : R,
    geometric a f (n + m) = geometric a f n ++ geometric (a * f ^ n) f m.
Proof.
  induction n as [| n IH]; intros a.
  - simpl. f_equal. ring.
  - change (S n + m)%nat with (S (n + m)).
    rewrite !geometric_cons, IH. simpl. do 3 f_equal. ring.
Qed.

Lemma geometric_length (a f : R) (n : nat) : length (geometric a f n) = n.
Proof. unfold geometric. now rewrite length_map, length_seq. Qed.

Lemma geometric_nth (a f : R) (n k : nat) :
  (k < n)%nat -> nth k (geometric a f n) 0 = a * f ^ k.
Proof.
  intros Hk. unfold geometric.
  rewrite (nth_indep _ 0 (a * f ^ 0))
    by (rewrite length_map, length_seq; exact Hk).
  etransitivity;
    [exact (map_nth (fun k => a * f ^ k) (seq 0 n) 0%nat k) |].
  cbv beta. rewrite seq_nth by exact Hk. reflexivity.
Qed.

End GeometricProgression.

Section RangeTest.
Import Keras ExponentialLearningRate.
Variables W I : Type.
Variable train_step : Z -> Z -> Model W I -> W * I * R.

(** The batches of one epoch under [fit]: every batch records the
    current rate and one loss, and multiplies the rate by [factor]. *)
Lemma fit_batches_range_test (n : nat) :
  forall (epoch b : Z) (sum : R) (self : t) (model : Model W I) (prev : R),
    sum_of_epoch_losses self = Some prev ->
    exists (self' : t) (model' : Model W I) (prev' : R),
      fit_batches callback train_step n epoch b sum self model
      = Some (self', model') /\
      factor self' = factor self /\
      rates self'
      = rates self ++ geometric (learning_rate model) (factor self) n /\
      length (losses self') = (length (losses self) + n)%nat /\
      learning_rate model' = learning_rate model * factor self ^ n /\
      sum_of_epoch_losses self' = Some prev'.
Proof.
  induction n as [| n IH]; intros epoch b sum self model prev Hsum.
  - exists self, model, prev. simpl. rewrite app_nil_r, Nat.add_0_r.
    repeat split; try assumption. ring.
  - cbn [fit_batches callback Keras.on_batch_begin Keras.on_batch_end pass
           Py.bind].
    destruct (train_step epoch b model) as [[w i] loss].
    unfold on_batch_end. rewrite getitem_loss, Hsum.
    cbn [Py.bind learning_rate].
    match goal with
    | |- context [fit_batches _ _ n epoch (b + 1) ?sum' ?s1 ?m1] =>
        destruct (IH epoch (b + 1)%Z sum' s1 m1 _ eq_refl)
          as (self' & model' & prev' & Hrun & Hf & Hrates & Hlosses
              & Hlr & Hsum')
    end.
    exists self', model', prev'.
    cbn [factor rates losses learning_rate assign_learning_rate] in *.
    split; [exact Hrun |]. split; [exact Hf |]. split.
    { rewrite Hrates, geometric_cons, <- app_assoc. reflexivity. }
    split.
    { rewrite Hlosses, length_app. simpl. lia. }
    split; [| exact Hsum'].
    rewrite Hlr. simpl. ring.
Qed.

(** [n] epochs of [steps] batches under [fit]. *)
Lemma fit_epochs_range_test (steps n : nat) :
  forall (epoch : Z) (self : t) (model : Model W I),
    exists (self' : t) (model' : Model W I),
      fit_epochs callback train_step n epoch steps self model
      = Some (self', model') /\
      factor self' = factor self /\
      rates self'
      = rates self
        ++ geometric (learning_rate model) (factor self) (n * steps) /\
      length (losses self') = (length (losses self) + n * steps)%nat /\
      learning_rate model'
      = learning_rate model * factor self ^ (n * steps).
Proof.
  induction n as [| n IH]; intros epoch self model.
  - exists self, model. simpl. rewrite app_nil_r, Nat.add_0_r.
    repeat split. ring.
  - cbn [fit_epochs callback Keras.on_epoch_begin on_epoch_begin Py.bind].
    match goal with
    | |- context [fit_batches _ _ steps epoch 0 0 ?s1 model] =>
        destruct (fit_batches_range_test steps epoch 0 0 s1 model 0 eq_refl)
          as (s2 & m2 & prev' & Hrun & Hf & Hrates & Hlosses & Hlr & _)
    end.
    fold (@callback W I). rewrite Hrun. cbn [Py.bind].
    destruct (IH (epoch + 1)%Z s2 m2)
      as (self' & model' & Hrun' & Hf' & Hrates' & Hlosses' & Hlr').
    exists self', model'.
    cbn [factor rates losses] in *.
    split; [exact Hrun' |]. split; [congruence |]. split.
    { rewrite Hrates', Hrates, Hf, Hlr, <- app_assoc.
      change (S n * steps)%nat with (steps + n * steps)%nat.
      now rewrite geometric_app. }
    split.
    { rewrite Hlosses', Hlosses. simpl. lia. }
    rewrite Hlr', Hlr, Hf.
    change (S n * steps)%nat with (steps + n * steps)%nat.
    rewrite pow_add. ring.
Qed.

End RangeTest.

Section FindLearningRateFacts.
Import Keras ExponentialLearningRate.
Variables W I : Type.
Variable train_step : Z -> Z -> Model W I -> W * I * R.

(** What a finished [model.fit] of the range test has done. *)
Lemma find_learning_rate_fit_inv (model : Model W I)
    (len_X epochs batch_size : Z) (min_rate max_rate : R)
    (exp_lr : t) (model_fit : Model W I) :
  find_learning_rate_fit train_step model len_X epochs batch_size
                         min_rate max_rate
  = Some (exp_lr, model_fit) ->
  exists (steps : Z) (f : R),
    Py.ceil_div len_X batch_size = Some steps /\
    probe_factor (steps * epochs) min_rate max_rate = Some f /\
    factor exp_lr = f /\
    rates exp_lr
    = geometric min_rate f (Z.to_nat epochs * Z.to_nat steps) /\
    length (losses exp_lr) = (Z.to_nat epochs * Z.to_nat steps)%nat /\
    learning_rate model_fit
    = min_rate * f ^ (Z.to_nat epochs * Z.to_nat steps).
Proof.
  unfold find_learning_rate_fit, probe_iterations, fit.
  destruct (Py.ceil_div len_X batch_size) as [steps |] eqn:Hsteps;
    [| discriminate].
  cbn [Py.bind].
  destruct (probe_factor (steps * epochs) min_rate max_rate) as [f |]
    eqn:Hfactor; [| discriminate].
  cbn [Py.bind].
  destruct (batch_size <=? 0)%Z; [discriminate |].
  destruct (fit_epochs_range_test W I train_step (Z.to_nat steps)
              (Z.to_nat epochs) 0 (__init__ f)
              (assign_learning_rate model min_rate))
    as (self' & model' & Hrun & Hf & Hrates & Hlosses & Hlr).
  rewrite Hrun. intros Heq. injection Heq as <- <-.
  exists steps, f. cbn [__init__ factor rates losses learning_rate
                        assign_learning_rate app length Nat.add] in *.
  repeat split; assumption.
Qed.

(** On a non-empty data set, with positive [epochs], [batch_size] and
    rates, the range test runs to completion. *)
Lemma find_learning_rate_fit_returns (model : Model W I)
    (len_X epochs batch_size : Z) (min_rate max_rate : R) :
  (0 < len_X)%Z -> (0 < epochs)%Z -> (0 < batch_size)%Z ->
  0 < min_rate -> 0 < max_rate ->
  exists (steps : Z) (exp_lr : t) (model_fit : Model W I),
    Py.ceil_div len_X batch_size = Some steps /\
    (0 < steps)%Z /\
    probe_factor (steps * epochs) min_rate max_rate
    = Some (Rpower (max_rate / min_rate) (1 / IZR (steps * epochs))) /\
    find_learning_rate_fit train_step model len_X epochs batch_size
                           min_rate max_rate
    = Some (exp_lr, model_fit).
Proof.
  intros Hlen Hepochs Hbs Hmin Hmax.
  destruct (ceil_div_positive len_X batch_size Hlen Hbs)
    as (steps & Hsteps & Hpos & _).
  assert (Hits : (0 < steps * epochs)%Z) by lia.
  assert (Hratio : 0 < max_rate / min_rate)
    by (apply Rdiv_lt_0_compat; assumption).
  assert (Hfactor : probe_factor (steps * epochs) min_rate max_rate
                    = Some (Rpower (max_rate / min_rate)
                                   (1 / IZR (steps * epochs)))).
  { unfold probe_factor. rewrite div_defined by lra. cbn [Py.bind].
    rewrite div_defined by (apply IZR_neq0; lia). cbn [Py.bind].
    now apply pow_positive_base. }
  unfold find_learning_rate_fit, probe_iterations, fit.
  rewrite Hsteps. cbn [Py.bind]. rewrite Hfactor. cbn [Py.bind].
  destruct (Z.leb_spec batch_size 0) as [Hneg | _]; [lia |].
  destruct (fit_epochs_range_test W I train_step (Z.to_nat steps)
              (Z.to_nat epochs) 0
              (__init__ (Rpower (max_rate / min_rate)
                                (1 / IZR (steps * epochs))))
              (assign_learning_rate model min_rate))
    as (self' & model' & Hrun & _).
  exists steps, self', model'. repeat split; try assumption.
Qed.

(** The [n]-th power of an [n]-th root. *)
Lemma root_power (x : R) (n : Z) :
  0 < x -> (0 < n)%Z -> Rpower x (1 / IZR n) ^ Z.to_nat n = x.
Proof.
  intros Hx Hn.
  rewrite <- Rpower_pow by (unfold Rpower; apply exp_pos).
  rewrite Rpower_mult, INR_IZR_INZ, Z2Nat.id by lia.
  replace (1 / IZR n * IZR n) with 1
    by (field; apply IZR_neq0; lia).
  now apply Rpower_1.
Qed.

End FindLearningRateFacts.

Section FindLearningRateTheorems.
Import Keras ExponentialLearningRate.
Variables W I : Type.
Variable train_step : Z -> Z -> Model W I -> W * I * R.

(** C3: on a non-empty data set, with positive [epochs], [batch_size],
    [min_rate] and [max_rate], [find_learning_rate] runs
    [iterations = ceil(len(X) / batch_size) * epochs] batches with the
    constant factor [(max_rate / min_rate) ** (1 / iterations)]; the
    rate recorded at batch [k] is [min_rate * factor ^ k], and the rate
    after the last batch is [max_rate]. *)
Theorem range_test_geometric (model : Model W I)
    (len_X epochs batch_size : Z) (min_rate max_rate : R) :
  (0 < len_X)%Z -> (0 < epochs)%Z -> (0 < batch_size)%Z ->
  0 < min_rate -> 0 < max_rate ->
  exists (iterations : Z) (f : R) (exp_lr : t) (model_fit model' : Model W I),
    probe_iterations len_X epochs batch_size = Some iterations /\
    (0 < iterations)%Z /\
    probe_factor iterations min_rate max_rate = Some f /\
    f = Rpower (max_rate / min_rate) (1 / IZR iterations) /\
    f ^ Z.to_nat iterations = max_rate / min_rate /\
    find_learning_rate_fit train_step model len_X epochs batch_size
                           min_rate max_rate
    = Some (exp_lr, model_fit) /\
    factor exp_lr = f /\
    length (rates exp_lr) = Z.to_nat iterations /\
    (forall k : nat,
       (k < Z.to_nat iterations)%nat ->
       nth k (rates exp_lr) 0 = min_rate * f ^ k) /\
    learning_rate model_fit = max_rate /\
    find_learning_rate train_step model len_X epochs batch_size
                       min_rate max_rate
    = Some (model', (rates exp_lr, losses exp_lr)).
Proof.
  intros Hlen Hepochs Hbs Hmin Hmax.
  destruct (find_learning_rate_fit_returns W I train_step model len_X epochs
              batch_size min_rate max_rate Hlen Hepochs Hbs Hmin Hmax)
    as (steps & exp_lr & model_fit & Hsteps & Hpos & Hfactor & Hfit).
  destruct (find_learning_rate_fit_inv W I train_step model len_X epochs
              batch_size min_rate max_rate exp_lr model_fit Hfit)
    as (steps' & f & Hsteps' & Hfactor' & Hf & Hrates & _ & Hlr).
  assert (steps' = steps) by congruence. subst steps'.
  assert (Ef : f = Rpower (max_rate / min_rate) (1 / IZR (steps * epochs)))
    by congruence.
  assert (Hits : (0 < steps * epochs)%Z) by lia.
  assert (Hn : (Z.to_nat epochs * Z.to_nat steps)%nat
               = Z.to_nat (steps * epochs)).
  { rewrite Z2Nat.inj_mul by lia. lia. }
  rewrite Hn in Hrates, Hlr.
  assert (Hroot : f ^ Z.to_nat (steps * epochs) = max_rate / min_rate).
  { rewrite Ef. apply root_power; [| exact Hits].
    apply Rdiv_lt_0_compat; assumption. }
  exists (steps * epochs)%Z, f, exp_lr, model_fit,
    (set_weights (assign_learning_rate model_fit (learning_rate model))
                 (weights model)).
  split; [unfold probe_iterations; now rewrite Hsteps |].
  split; [exact Hits |]. split; [exact Hfactor' |]. split; [exact Ef |].
  split; [exact Hroot |]. split; [exact Hfit |]. split; [exact Hf |].
  split; [rewrite Hrates; apply geometric_length |].
  split.
  { intros k Hk. rewrite Hrates. now apply geometric_nth. }
  split.
  { rewrite Hlr, Hroot. field. lra. }
  unfold find_learning_rate. rewrite Hfit. reflexivity.
Qed.

(** C8 (amended): when [find_learning_rate] returns, the model's weights
    and the optimizer's learning rate are those captured at entry; what it
    returns are the two lists of the callback; the rest of the model is
    not restored, it is as [model.fit] left it. *)
Theorem find_learning_rate_restores_model (model model' : Model W I)
    (len_X epochs batch_size : Z) (min_rate max_rate : R)
    (result : list R * list R) :
  find_learning_rate train_step model len_X epochs batch_size
                     min_rate max_rate
  = Some (model', result) ->
  weights model' = weights model /\
  learning_rate model' = learning_rate model /\
  exists (exp_lr : t) (model_fit : Model W I),
    find_learning_rate_fit train_step model len_X epochs batch_size
                           min_rate max_rate
    = Some (exp_lr, model_fit) /\
    result = (rates exp_lr, losses exp_lr) /\
    internals model' = internals model_fit.
Proof.
  unfold find_learning_rate.
  destruct (find_learning_rate_fit train_step model len_X epochs batch_size
              min_rate max_rate) as [[exp_lr model_fit] |];
    [| discriminate].
  cbn [Py.bind]. intros Heq. injection Heq as <- <-.
  split; [reflexivity |]. split; [reflexivity |].
  exists exp_lr, model_fit. repeat split.
Qed.

(** C9: [__init__] creates two empty lists; [on_epoch_begin] leaves
    them alone; [on_batch_end] appends exactly one element to each; so
    every hook preserves [len(rates) == len(losses)], and the two lists
    that [find_learning_rate] returns have the same length, the number
    of batches [model.fit] processed. *)
Theorem rates_and_losses_same_length :
  (forall f : R, rates (__init__ f) = [] /\ losses (__init__ f) = []) /\
  (forall (self self' : t) (model model' : Model W I) (epoch : Z)
          (logs : Logs),
      on_epoch_begin self model epoch logs = Some (self', model') ->
      rates self' = rates self /\ losses self' = losses self) /\
  (forall (self self' : t) (model model' : Model W I) (batch : Z)
          (logs : Logs),
      on_batch_end self model batch logs = Some (self', model') ->
      exists r l : R,
        rates self' = rates self ++ [r] /\
        losses self' = losses self ++ [l]) /\
  (forall (hook : t -> Model W I -> Z -> Logs -> option (t * Model W I))
          (self self' : t) (model model' : Model W I) (n : Z) (logs : Logs),
      hook = on_epoch_begin \/ hook = on_batch_end \/ hook = pass ->
      length (rates self) = length (losses self) ->
      hook self model n logs = Some (self', model') ->
      length (rates self') = length (losses self')) /\
  (forall (model model' : Model W I) (len_X epochs batch_size : Z)
          (min_rate max_rate : R) (rs ls : list R),
      find_learning_rate train_step model len_X epochs batch_size
                         min_rate max_rate
      = Some (model', (rs, ls)) ->
      length rs = length ls /\
      exists steps : Z,
        Py.ceil_div len_X batch_size = Some steps /\
        length rs = (Z.to_nat epochs * Z.to_nat steps)%nat).
Proof.
  assert (Hepoch : forall (self self' : t) (model model' : Model W I)
                          (epoch : Z) (logs : Logs),
             on_epoch_begin self model epoch logs = Some (self', model') ->
             rates self' = rates self /\ losses self' = losses self).
  { intros self self' model model' epoch logs Heq.
    unfold on_epoch_begin in Heq. injection Heq as <- <-. now split. }
  assert (Hbatch : forall (self self' : t) (model model' : Model W I)
                          (batch : Z) (logs : Logs),
             on_batch_end self model batch logs = Some (self', model') ->
             exists r l : R,
               rates self' = rates self ++ [r] /\
               losses self' = losses self ++ [l]).
  { intros self self' model model' batch logs Heq.
    unfold on_batch_end in Heq.
    destruct (getitem logs "loss") as [mean |]; [| discriminate].
    destruct (sum_of_epoch_losses self) as [old |]; [| discriminate].
    cbn [Py.bind] in Heq. injection Heq as <- <-.
    eexists. eexists. split; reflexivity. }
  split; [intros f; now split |].
  split; [exact Hepoch |]. split; [exact Hbatch |].
  split.
  - intros hook self self' model model' n logs Hhook Hinv Hcall.
    destruct Hhook as [-> | [-> | ->]].
    + destruct (Hepoch _ _ _ _ _ _ Hcall) as [-> ->]. exact Hinv.
    + destruct (Hbatch _ _ _ _ _ _ Hcall) as (r & l & -> & ->).
      rewrite !length_app, Hinv. reflexivity.
    + unfold pass in Hcall. injection Hcall as <- <-. exact Hinv.
  - intros model model' len_X epochs batch_size min_rate max_rate rs ls Hret.
    unfold find_learning_rate in Hret.
    destruct (find_learning_rate_fit train_step model len_X epochs
                batch_size min_rate max_rate)
      as [[exp_lr model_fit] |] eqn:Hfit; [| discriminate].
    cbn [Py.bind] in Hret. injection Hret as _ <- <-.
    destruct (find_learning_rate_fit_inv W I train_step model len_X epochs
                batch_size min_rate max_rate exp_lr model_fit Hfit)
      as (steps & f & Hsteps & _ & _ & Hrates & Hlosses & _).
    rewrite Hrates, geometric_length, Hlosses.
    split; [reflexivity |]. exists steps. now split.
Qed.

End FindLearningRateTheorems.

Lemma range_test_geometric_witness :
  exists (iterations : Z) (exp_lr : ExponentialLearningRate.t)
         (model_fit : Keras.Model unit unit),
    probe_iterations 64 1 32 = Some iterations /\
    find_learning_rate_fit idle_step (Keras.mkModel tt (1 / 1000) tt) 64 1 32
                           (1 / 10000) 1
    = Some (exp_lr, model_fit) /\
    Keras.learning_rate model_fit = 1.
Proof.
  destruct (range_test_geometric unit unit idle_step
              (Keras.mkModel tt (1 / 1000) tt) 64 1 32 (1 / 10000) 1)
    as (its & f & exp_lr & model_fit & model' & Hits & _ & _ & _ & _ & Hfit
        & _ & _ & _ & Hlr & _); try lia; try lra.
  exists its, exp_lr, model_fit. repeat split; assumption.
Defined.

(** The range test on a model whose training steps move the weights and
    count themselves. *)
Section CountingSteps.
Import Keras ExponentialLearningRate.

Lemma fit_batches_counting (n : nat) :
  forall (epoch b : Z) (sum : R) (self : t) (model : Model nat nat)
         (prev : R),
    sum_of_epoch_losses self = Some prev ->
    exists (self' : t) (model' : Model nat nat) (prev' : R),
      fit_batches callback counting_step n epoch b sum self model
      = Some (self', model') /\
      weights model' = (n + weights model)%nat /\
      internals model' = (n + internals model)%nat /\
      sum_of_epoch_losses self' = Some prev'.
Proof.
  induction n as [| n IH]; intros epoch b sum self model prev Hsum.
  - exists self, model, prev. repeat split. exact Hsum.
  - cbn [fit_batches callback Keras.on_batch_begin Keras.on_batch_end pass
           Py.bind counting_step].
    unfold on_batch_end. rewrite getitem_loss, Hsum.
    cbn [Py.bind learning_rate].
    match goal with
    | |- context [fit_batches _ _ n epoch (b + 1) ?sum' ?s1 ?m1] =>
        destruct (IH epoch (b + 1)%Z sum' s1 m1 _ eq_refl)
          as (self' & model' & prev' & Hrun & Hw & Hi & Hsum')
    end.
    exists self', model', prev'.
    cbn [weights internals assign_learning_rate] in *.
    split; [exact Hrun |]. split; [lia |]. split; [lia | exact Hsum'].
Qed.

Lemma fit_epochs_counting (steps n : nat) :
  forall (epoch : Z) (self : t) (model : Model nat nat),
    exists (self' : t) (model' : Model nat nat),
      fit_epochs callback counting_step n epoch steps self model
      = Some (self', model') /\
      weights model' = (n * steps + weights model)%nat /\
      internals model' = (n * steps + internals model)%nat.
Proof.
  induction n as [| n IH]; intros epoch self model.
  - exists self, model. repeat split.
  - cbn [fit_epochs callback Keras.on_epoch_begin on_epoch_begin Py.bind].
    match goal with
    | |- context [fit_batches _ _ steps epoch 0 0 ?s1 model] =>
        destruct (fit_batches_counting steps epoch 0 0 s1 model 0 eq_refl)
          as (s2 & m2 & prev' & Hrun & Hw & Hi & _)
    end.
    fold (@callback nat nat). rewrite Hrun. cbn [Py.bind].
    destruct (IH (epoch + 1)%Z s2 m2) as (self' & model' & Hrun' & Hw' & Hi').
    exists self', model'. split; [exact Hrun' |]. split; lia.
Qed.

(** Two batches of 32 samples: the weights go from 7 to 9 and the step
    counter from 0 to 2. *)
Lemma counting_range_test :
  exists (exp_lr : t) (model_fit : Model nat nat),
    find_learning_rate_fit counting_step (mkModel 7%nat (1 / 1000) 0%nat)
                           64 1 32 (1 / 10000) 1
    = Some (exp_lr, model_fit) /\
    weights model_fit = 9%nat /\
    internals model_fit = 2%nat.
Proof.
  destruct (find_learning_rate_fit_returns nat nat counting_step
              (mkModel 7%nat (1 / 1000) 0%nat) 64 1 32 (1 / 10000) 1)
    as (steps & exp_lr & model_fit & Hsteps & _ & Hfactor & Hfit);
    try lia; try lra.
  assert (E : Py.ceil_div 64 32 = Some 2%Z) by reflexivity.
  assert (steps = 2%Z) by congruence. subst steps.
  exists exp_lr, model_fit. split; [exact Hfit |].
  unfold find_learning_rate_fit, probe_iterations, fit in Hfit.
  rewrite E in Hfit. cbn [Py.bind] in Hfit.
  rewrite Hfactor in Hfit. cbn [Py.bind] in Hfit.
  change (32 <=? 0)%Z with false in Hfit. cbv iota in Hfit.
  match type of Hfit with
  | fit_epochs _ _ ?n ?e ?st ?s0 ?m0 = _ =>
      destruct (fit_epochs_counting st n e s0 m0)
        as (self' & model' & Hrun & Hw & Hi)
  end.
  rewrite Hrun in Hfit. injection Hfit as _ <-.
  split; [exact Hw | exact Hi].
Qed.

(** C8, as stated, fails on its last clause: after a range test of two
    batches on a model whose training advances a step counter, the
    weights (moved to 9 by the training) are back at 7 and the learning
    rate is back at 0.001, but the counter stays at 2: the model that
    comes out is not the model that went in, so more than the two
    returned lists carries information out of the probe. *)
Lemma find_learning_rate_leaves_trace_counterexample :
  exists (exp_lr : t) (model_fit model' : Model nat nat)
         (result : list R * list R),
    find_learning_rate_fit counting_step (mkModel 7%nat (1 / 1000) 0%nat)
                           64 1 32 (1 / 10000) 1
    = Some (exp_lr, model_fit) /\
    weights model_fit = 9%nat /\
    find_learning_rate counting_step (mkModel 7%nat (1 / 1000) 0%nat)
                       64 1 32 (1 / 10000) 1
    = Some (model', result) /\
    weights model' = 7%nat /\
    learning_rate model' = 1 / 1000 /\
    internals model' = 2%nat /\
    model' <> mkModel 7%nat (1 / 1000) 0%nat.
Proof.
  destruct counting_range_test as (exp_lr & model_fit & Hfit & Hw & Hi).
  exists exp_lr, model_fit,
    (set_weights (assign_learning_rate model_fit (1 / 1000)) 7%nat),
    (rates exp_lr, losses exp_lr).
  split; [exact Hfit |]. split; [exact Hw |].
  split; [unfold find_learning_rate; rewrite Hfit; reflexivity |].
  split; [reflexivity |]. split; [reflexivity |].
  split; [exact Hi |].
  intros Heq. apply (f_equal internals) in Heq.
  cbn [internals set_weights assign_learning_rate] in Heq.
  rewrite Hi in Heq. discriminate.
Qed.

End CountingSteps.

Lemma find_learning_rate_restores_model_witness :
  exists (model_fit model' : Keras.Model nat nat) (result : list R * list R),
    Keras.weights model_fit = 9%nat /\
    find_learning_rate counting_step (Keras.mkModel 7%nat (1 / 1000) 0%nat)
                       64 1 32 (1 / 10000) 1
    = Some (model', result) /\
    Keras.weights model' = 7%nat /\
    Keras.learning_rate model' = 1 / 1000 /\
    Keras.internals model' = Keras.internals model_fit.
Proof.
  destruct counting_range_test as (exp_lr & model_fit & Hfit & Hw & _).
  assert (Hret : find_learning_rate counting_step
                   (Keras.mkModel 7%nat (1 / 1000) 0%nat) 64 1 32
                   (1 / 10000) 1
                 = Some (Keras.set_weights
                           (Keras.assign_learning_rate model_fit (1 / 1000))
                           7%nat,
                         (ExponentialLearningRate.rates exp_lr,
                          ExponentialLearningRate.losses exp_lr))).
  { unfold find_learning_rate. rewrite Hfit. reflexivity. }
  destruct (find_learning_rate_restores_model nat nat counting_step _ _ _ _ _
              _ _ _ Hret) as (Hw' & Hlr & _).
  exists model_fit. eexists. eexists.
  split; [exact Hw |]. split; [exact Hret |].
  split; [exact Hw' |]. split; [exact Hlr | reflexivity].
Defined.

Lemma rates_and_losses_same_length_witness :
  exists (model' : Keras.Model unit unit) (rs ls : list R),
    find_learning_rate idle_step (Keras.mkModel tt (1 / 1000) tt) 64 1 32
                       (1 / 10000) 1
    = Some (model', (rs, ls)) /\
    length rs = length ls.
Proof.
  destruct (find_learning_rate_fit_returns unit unit idle_step
              (Keras.mkModel tt (1 / 1000) tt) 64 1 32 (1 / 10000) 1)
    as (steps & exp_lr & model_fit & _ & _ & _ & Hfit); try lia; try lra.
  assert (Hret : find_learning_rate idle_step (Keras.mkModel tt (1 / 1000) tt)
                   64 1 32 (1 / 10000) 1
                 = Some (Keras.set_weights
                           (Keras.assign_learning_rate model_fit (1 / 1000)) tt,
                         (ExponentialLearningRate.rates exp_lr,
                          ExponentialLearningRate.losses exp_lr))).
  { unfold find_learning_rate. rewrite Hfit. reflexivity. }
  destruct (rates_and_losses_same_length unit unit idle_step)
    as (_ & _ & _ & _ & Hfind).
  destruct (Hfind _ _ _ _ _ _ _ _ _ Hret) as [Hlen _].
  eexists. eexists. eexists. split; [exact Hret | exact Hlen].
Defined.

(** ** The schedules instantiated in cells 16 and 18 *)

Section NotebookSchedules.
Import Keras.

Lemma ceil_div_batch_size (len : Z) :
  (0 <= len)%Z ->
  exists steps : Z,
    Py.ceil_div len batch_size = Some steps /\
    (0 <= steps)%Z /\ (len <= steps * 32 < len + 32)%Z /\
    (0 < len -> 0 < steps)%Z.
Proof.
  intros Hlen. unfold Py.ceil_div, batch_size.
  change (32 =? 0)%Z with false. cbv iota.
  exists (- (- len / 32))%Z. split; [reflexivity |].
  pose proof (Z.div_mod (- len) 32 ltac:(lia)).
  pose proof (Z.mod_pos_bound (- len) 32 ltac:(lia)).
  lia.
Qed.

(** C5: the exponential schedule of cell 16 is
    eta(t) = eta0 * gamma^(t/s) with eta0 = 0.1, gamma = 0.95 and
    s = n_steps = 10 * ceil(len(X_train) / 32); it starts at 0.1 and,
    after the [n_steps] batches of the 10 epochs, has decayed by one
    factor of 0.95, to 0.095. *)
Theorem exponential_schedule_decays_once (len : Z) :
  (0 < len)%Z ->
  exists (steps n : Z) (sched : ExponentialDecay.t),
    Py.ceil_div len 32 = Some steps /\
    (len <= steps * 32 < len + 32)%Z /\
    n_steps len = Some n /\
    n = (10 * steps)%Z /\
    exponential_lr_schedule len = Some sched /\
    ExponentialDecay.initial_learning_rate sched = 1 / 10 /\
    ExponentialDecay.decay_rate sched = 95 / 100 /\
    ExponentialDecay.decay_steps sched = n /\
    (forall t : Z,
       ExponentialDecay.__call__ sched t
       = Some (1 / 10 * Rpower (95 / 100) (IZR t / IZR n))) /\
    ExponentialDecay.__call__ sched 0 = Some (1 / 10) /\
    ExponentialDecay.__call__ sched n = Some (95 / 1000).
Proof.
  intros Hlen.
  destruct (ceil_div_batch_size len ltac:(lia))
    as (steps & Hsteps & _ & Hceil & Hpos).
  specialize (Hpos Hlen).
  exists steps, (10 * steps)%Z, (ExponentialDecay.__init__ (1 / 10)
                                    (10 * steps) (95 / 100)).
  assert (Hcall : forall t : Z,
             ExponentialDecay.__call__
               (ExponentialDecay.__init__ (1 / 10) (10 * steps) (95 / 100)) t
             = Some (1 / 10 * Rpower (95 / 100)
                                     (IZR t / IZR (10 * steps)))).
  { intros t. unfold ExponentialDecay.__call__.
    cbn [ExponentialDecay.initial_learning_rate
           ExponentialDecay.decay_steps ExponentialDecay.decay_rate].
    rewrite div_defined by (apply IZR_neq0; lia). cbn [Py.bind].
    rewrite pow_positive_base by lra. reflexivity. }
  split; [exact Hsteps |]. split; [exact Hceil |].
  split; [unfold n_steps; fold batch_size; rewrite Hsteps; reflexivity |].
  split; [reflexivity |].
  split.
  { unfold exponential_lr_schedule, n_steps. fold batch_size.
    rewrite Hsteps. reflexivity. }
  split; [reflexivity |]. split; [reflexivity |]. split; [reflexivity |].
  split; [exact Hcall |].
  split.
  - rewrite Hcall. f_equal.
    replace (IZR 0 / IZR (10 * steps)) with 0 by (unfold Rdiv; ring).
    rewrite Rpower_O by lra. ring.
  - rewrite Hcall. f_equal.
    replace (IZR (10 * steps) / IZR (10 * steps)) with 1
      by (field; apply IZR_neq0; lia).
    rewrite Rpower_1 by lra. lra.
Qed.

Lemma exponential_schedule_decays_once_witness :
  exists sched : ExponentialDecay.t,
    n_steps 55000 = Some 17190%Z /\
    exponential_lr_schedule 55000 = Some sched /\
    ExponentialDecay.__call__ sched 17190 = Some (95 / 1000).
Proof.
  destruct (exponential_schedule_decays_once 55000 ltac:(lia))
    as (steps & n & sched & _ & _ & Hn & _ & Hsched & _ & _ & _ & _ & _
        & Hend).
  assert (En : n = 17190%Z).
  { assert (E : n_steps 55000 = Some 17190%Z) by reflexivity. congruence. }
  subst n. exists sched. repeat split; assumption.
Defined.

(** C6: the piecewise-constant schedule of cell 18 has the boundaries
    [b1 = 3 * ceil(len(X_train) / 32)] and [b2 = 2 * b1], and yields 0.1
    for steps [t <= b1], 0.05 for [b1 < t <= b2] and 0.005 for
    [t > b2]. *)
Theorem piecewise_schedule_rates (len : Z) :
  (0 <= len)%Z ->
  exists (steps x1 x2 : Z) (sched : PiecewiseConstantDecay.t),
    epoch_steps len = Some steps /\
    (len <= steps * 32 < len + 32)%Z /\
    b1 len = Some x1 /\ x1 = (3 * steps)%Z /\
    b2 len = Some x2 /\ x2 = (2 * x1)%Z /\
    piecewise_lr_schedule len = Some sched /\
    forall t : Z,
      ((t <= x1)%Z ->
       PiecewiseConstantDecay.__call__ sched t = Some (1 / 10)) /\
      ((x1 < t <= x2)%Z ->
       PiecewiseConstantDecay.__call__ sched t = Some (5 / 100)) /\
      ((x2 < t)%Z ->
       PiecewiseConstantDecay.__call__ sched t = Some (5 / 1000)).
Proof.
  intros Hlen.
  destruct (ceil_div_batch_size len Hlen)
    as (steps & Hsteps & Hnonneg & Hceil & _).
  exists steps, (steps * 3)%Z, (steps * 3 + steps * 3)%Z,
    (PiecewiseConstantDecay.__init__
       [(steps * 3)%Z; (steps * 3 + steps * 3)%Z]
       [1 / 10; 5 / 100; 5 / 1000]).
  split; [exact Hsteps |]. split; [exact Hceil |].
  split; [unfold b1, epoch_steps; rewrite Hsteps; reflexivity |].
  split; [lia |].
  split; [unfold b2, b1, epoch_steps; rewrite Hsteps; reflexivity |].
  split; [lia |].
  split.
  { unfold piecewise_lr_schedule, b2, b1, epoch_steps.
    rewrite Hsteps. reflexivity. }
  intros t. unfold PiecewiseConstantDecay.__call__.
  cbn [PiecewiseConstantDecay.boundaries PiecewiseConstantDecay.values
         length Nat.add Nat.eqb PiecewiseConstantDecay.select].
  destruct (Z.leb_spec t (steps * 3)) as [H1 | H1];
    destruct (Z.leb_spec t (steps * 3 + steps * 3)) as [H2 | H2];
    repeat split; intros Ht; try reflexivity; lia.
Qed.

Lemma piecewise_schedule_rates_witness :
  exists sched : PiecewiseConstantDecay.t,
    b1 55000 = Some 5157%Z /\
    b2 55000 = Some 10314%Z /\
    piecewise_lr_schedule 55000 = Some sched /\
    PiecewiseConstantDecay.__call__ sched 5157 = Some (1 / 10) /\
    PiecewiseConstantDecay.__call__ sched 5158 = Some (5 / 100) /\
    PiecewiseConstantDecay.__call__ sched 10315 = Some (5 / 1000).
Proof.
  destruct (piecewise_schedule_rates 55000 ltac:(lia))
    as (steps & x1 & x2 & sched & _ & _ & Hb1 & _ & Hb2 & _ & Hsched & Hrates).
  assert (E1 : x1 = 5157%Z).
  { assert (E : b1 55000 = Some 5157%Z) by reflexivity. congruence. }
  assert (E2 : x2 = 10314%Z).
  { assert (E : b2 55000 = Some 10314%Z) by reflexivity. congruence. }
  subst x1 x2. exists sched.
  split; [exact Hb1 |]. split; [exact Hb2 |]. split; [exact Hsched |].
  split; [apply (Hrates 5157%Z); lia |].
  split; [apply (Hrates 5158%Z); lia | apply (Hrates 10315%Z); lia].
Defined.

End NotebookSchedules.

(** * Further properties of the notebook's code *)

(** ** [OneCycleScheduler]: the shape of the schedule *)

Section OneCycleShape.
Import Keras OneCycleScheduler.

Lemma rate_at_branches (s : t) (i : Z) :
  ((i < 2 * half_iteration s)%Z -> half_iteration s <> 0%Z) ->
  ((2 * half_iteration s <= i)%Z -> iterations s <> (2 * half_iteration s)%Z) ->
  rate_at s i
  = Some (if (i <? half_iteration s)%Z then
            line_through 0 (start_lr s) (half_iteration s) (max_lr s) i
          else if (i <? 2 * half_iteration s)%Z then
            line_through (half_iteration s) (max_lr s)
                         (2 * half_iteration s) (start_lr s) i
          else
            line_through (2 * half_iteration s) (start_lr s)
                         (iterations s) (last_lr s) i).
Proof.
  intros H12 H3. unfold rate_at.
  rewrite batch_lr_branches; [reflexivity | exact H12 | exact H3].
Qed.

Lemma rate_rising (s : t) (i : Z) :
  (0 < half_iteration s)%Z -> (i <= half_iteration s)%Z ->
  rate_at s i
  = Some (line_through 0 (start_lr s) (half_iteration s) (max_lr s) i).
Proof.
  intros Hhalf Hi. rewrite rate_at_branches by lia.
  destruct (Z.ltb_spec i (half_iteration s)) as [H1 | H1]; [reflexivity |].
  assert (E : i = half_iteration s) by lia. rewrite E.
  destruct (Z.ltb_spec (half_iteration s) (2 * half_iteration s)); [| lia].
  rewrite line_through_left, line_through_right by lia. reflexivity.
Qed.

Lemma rate_falling (s : t) (i : Z) :
  (0 < half_iteration s)%Z -> iterations s <> (2 * half_iteration s)%Z ->
  (half_iteration s <= i <= 2 * half_iteration s)%Z ->
  rate_at s i
  = Some (line_through (half_iteration s) (max_lr s)
                       (2 * half_iteration s) (start_lr s) i).
Proof.
  intros Hhalf Hne Hi. rewrite rate_at_branches by lia.
  destruct (Z.ltb_spec i (half_iteration s)) as [H1 | H1]; [lia |].
  destruct (Z.ltb_spec i (2 * half_iteration s)) as [H2 | H2];
    [reflexivity |].
  assert (E : i = (2 * half_iteration s)%Z) by lia. rewrite E.
  rewrite line_through_left, line_through_right by lia. reflexivity.
Qed.

Lemma rate_annealing (s : t) (i : Z) :
  (0 <= half_iteration s)%Z -> iterations s <> (2 * half_iteration s)%Z ->
  (2 * half_iteration s <= i)%Z ->
  rate_at s i
  = Some (line_through (2 * half_iteration s) (start_lr s)
                       (iterations s) (last_lr s) i).
Proof.
  intros Hhalf Hne Hi. rewrite rate_at_branches by lia.
  destruct (Z.ltb_spec i (half_iteration s)) as [H1 | H1]; [lia |].
  destruct (Z.ltb_spec i (2 * half_iteration s)) as [H2 | H2]; [lia |].
  reflexivity.
Qed.

Lemma line_through_step (x1 : Z) (y1 : R) (x2 : Z) (y2 : R) (x : Z) :
  x1 <> x2 ->
  line_through x1 y1 x2 y2 (x + 1) - line_through x1 y1 x2 y2 x
  = (y2 - y1) / IZR (x2 - x1).
Proof.
  intros Hne. unfold line_through.
  replace (x + 1 - x1)%Z with (x - x1 + 1)%Z by lia.
  rewrite plus_IZR. field. apply IZR_neq0. lia.
Qed.

Lemma line_through_fraction (x1 x2 x : Z) :
  (x1 < x2)%Z -> (x1 <= x <= x2)%Z ->
  0 <= IZR (x - x1) / IZR (x2 - x1) <= 1.
Proof.
  intros Hlt Hx.
  assert (Hd : 0 < IZR (x2 - x1)) by (apply IZR_lt; lia).
  assert (Hn : 0 <= IZR (x - x1)) by (apply IZR_le; lia).
  assert (Hle : IZR (x - x1) <= IZR (x2 - x1)) by (apply IZR_le; lia).
  pose proof (Rinv_0_lt_compat _ Hd) as Hinv.
  assert (Hone : IZR (x2 - x1) * / IZR (x2 - x1) = 1)
    by (apply Rinv_r; lra).
  unfold Rdiv. split; nra.
Qed.

(** X1: on each of the three segments the rate changes by a constant
    amount per batch: [(max_lr - start_lr) / half_iteration] while rising,
    the opposite while falling, and
    [(last_lr - start_lr) / (iterations - 2 * half_iteration)] from
    [2 * half_iteration] on. *)
Theorem one_cycle_constant_slopes (s : t) (i : Z) :
  (0 < half_iteration s)%Z ->
  (2 * half_iteration s < iterations s)%Z ->
  exists a b : R,
    rate_at s i = Some a /\
    rate_at s (i + 1) = Some b /\
    ((i < half_iteration s)%Z ->
     b - a = (max_lr s - start_lr s) / IZR (half_iteration s)) /\
    ((half_iteration s <= i < 2 * half_iteration s)%Z ->
     b - a = (start_lr s - max_lr s) / IZR (half_iteration s)) /\
    ((2 * half_iteration s <= i)%Z ->
     b - a = (last_lr s - start_lr s)
             / IZR (iterations s - 2 * half_iteration s)).
Proof.
  intros Hhalf Hlast.
  destruct (Z.lt_ge_cases i (half_iteration s)) as [H1 | H1];
    [| destruct (Z.lt_ge_cases i (2 * half_iteration s)) as [H2 | H2]].
  - rewrite (rate_rising s i), (rate_rising s (i + 1)) by lia.
    eexists. eexists. split; [reflexivity |]. split; [reflexivity |].
    repeat split; intros Hi; try lia.
    rewrite line_through_step by lia. now rewrite Z.sub_0_r.
  - rewrite (rate_falling s i), (rate_falling s (i + 1)) by lia.
    eexists. eexists. split; [reflexivity |]. split; [reflexivity |].
    repeat split; intros Hi; try lia.
    rewrite line_through_step by lia.
    replace (2 * half_iteration s - half_iteration s)%Z
      with (half_iteration s) by lia.
    reflexivity.
  - rewrite (rate_annealing s i), (rate_annealing s (i + 1)) by lia.
    eexists. eexists. split; [reflexivity |]. split; [reflexivity |].
    repeat split; intros Hi; try lia.
    now rewrite line_through_step by lia.
Qed.

Lemma one_cycle_constant_slopes_witness :
  exists a b : R,
    rate_at (__init__ 25 1 None None None) 3 = Some a /\
    rate_at (__init__ 25 1 None None None) 4 = Some b /\
    b - a = (1 - 1 / 10) / 11.
Proof.
  destruct (one_cycle_constant_slopes (__init__ 25 1 None None None) 3)
    as (a & b & Ha & Hb & Hrise & _).
  - reflexivity.
  - reflexivity.
  - exists a, b. split; [exact Ha |]. split; [exact Hb |].
    apply Hrise. reflexivity.
Defined.

(** X2: when [last_lr <= start_lr <= max_lr], [half_iteration >= 0] and
    [2 * half_iteration < iterations], every rate assigned at a counter
    between 0 and [iterations] lies between [last_lr] and [max_lr]. *)
Theorem one_cycle_rate_bounds (s : t) (i : Z) :
  (0 <= half_iteration s)%Z ->
  (2 * half_iteration s < iterations s)%Z ->
  last_lr s <= start_lr s -> start_lr s <= max_lr s ->
  (0 <= i <= iterations s)%Z ->
  exists lr : R, rate_at s i = Some lr /\ last_lr s <= lr <= max_lr s.
Proof.
  intros Hhalf Hlast Hls Hsm Hi.
  destruct (Z.lt_ge_cases i (half_iteration s)) as [H1 | H1];
    [| destruct (Z.lt_ge_cases i (2 * half_iteration s)) as [H2 | H2]].
  - rewrite rate_rising by lia. eexists. split; [reflexivity |].
    unfold line_through.
    pose proof (line_through_fraction 0 (half_iteration s) i
                  ltac:(lia) ltac:(lia)).
    nra.
  - rewrite rate_falling by lia. eexists. split; [reflexivity |].
    unfold line_through.
    pose proof (line_through_fraction (half_iteration s)
                  (2 * half_iteration s) i ltac:(lia) ltac:(lia)).
    nra.
  - rewrite rate_annealing by lia. eexists. split; [reflexivity |].
    unfold line_through.
    pose proof (line_through_fraction (2 * half_iteration s) (iterations s) i
                  ltac:(lia) ltac:(lia)).
    nra.
Qed.

Lemma one_cycle_rate_bounds_witness :
  exists lr : R,
    rate_at (__init__ 25 1 None None None) 17 = Some lr /\
    1 / 10 / 1000 <= lr <= 1.
Proof.
  apply (one_cycle_rate_bounds (__init__ 25 1 None None None) 17).
  - discriminate.
  - reflexivity.
  - cbn. lra.
  - cbn. lra.
  - split; discriminate.
Defined.

(** X3: the rising and the falling segment mirror each other: [k] batches
    before the peak and [k] batches after it the rate is the same. *)
Theorem one_cycle_symmetric (s : t) (k : Z) :
  (0 < half_iteration s)%Z ->
  (2 * half_iteration s < iterations s)%Z ->
  (0 <= k <= half_iteration s)%Z ->
  rate_at s (half_iteration s - k) = rate_at s (half_iteration s + k).
Proof.
  intros Hhalf Hlast Hk.
  rewrite rate_rising, rate_falling by lia.
  f_equal. unfold line_through.
  replace (half_iteration s - k - 0)%Z with (half_iteration s - k)%Z by lia.
  replace (half_iteration s - 0)%Z with (half_iteration s) by lia.
  replace (half_iteration s + k - half_iteration s)%Z with k by lia.
  replace (2 * half_iteration s - half_iteration s)%Z
    with (half_iteration s) by lia.
  rewrite minus_IZR. field. apply IZR_neq0. lia.
Qed.

Lemma one_cycle_symmetric_witness :
  rate_at (__init__ 25 1 None None None) (11 - 4)
  = rate_at (__init__ 25 1 None None None) (11 + 4).
Proof.
  apply (one_cycle_symmetric (__init__ 25 1 None None None) 4).
  - reflexivity.
  - reflexivity.
  - split; discriminate.
Defined.

(** X4: the rate is not clamped: when training goes on past [iterations]
    batches and [last_lr < start_lr], the rate keeps falling below
    [last_lr]. *)
Theorem one_cycle_overrun (s : t) (i : Z) :
  (0 <= half_iteration s)%Z ->
  (2 * half_iteration s < iterations s)%Z ->
  last_lr s < start_lr s ->
  (iterations s < i)%Z ->
  exists lr : R, rate_at s i = Some lr /\ lr < last_lr s.
Proof.
  intros Hhalf Hlast Hls Hi.
  rewrite rate_annealing by lia. eexists. split; [reflexivity |].
  unfold line_through.
  assert (Hd : 0 < IZR (iterations s - 2 * half_iteration s))
    by (apply IZR_lt; lia).
  assert (Hn : IZR (iterations s - 2 * half_iteration s)
               < IZR (i - 2 * half_iteration s)) by (apply IZR_lt; lia).
  pose proof (Rinv_0_lt_compat _ Hd) as Hinv.
  assert (Hone : IZR (iterations s - 2 * half_iteration s)
                 * / IZR (iterations s - 2 * half_iteration s) = 1)
    by (apply Rinv_r; lra).
  assert (Ht : 1 < IZR (i - 2 * half_iteration s)
                   / IZR (iterations s - 2 * half_iteration s))
    by (unfold Rdiv; nra).
  nra.
Qed.

Lemma one_cycle_overrun_witness :
  exists lr : R,
    rate_at (__init__ 25 1 None None None) 26 = Some lr /\
    lr < 1 / 10 / 1000.
Proof.
  apply (one_cycle_overrun (__init__ 25 1 None None None) 26).
  - discriminate.
  - reflexivity.
  - cbn. lra.
  - reflexivity.
Defined.

(** X5: [__init__] treats an explicit zero like a missing argument
    ([start_lr or ...]): zeros are replaced by the defaults
    [max_lr / 10], [iterations // 10 + 1] and [start_lr / 1000], and
    non-zero arguments are kept. *)
Theorem one_cycle_init_falsy_arguments (its : Z) (max : R) :
  __init__ its max (Some 0) (Some 0%Z) (Some 0)
  = __init__ its max None None None /\
  start_lr (__init__ its max None None None) = max / 10 /\
  last_iterations (__init__ its max None None None) = (its / 10 + 1)%Z /\
  last_lr (__init__ its max None None None) = max / 10 / 1000 /\
  forall (a c : R) (b : Z),
    a <> 0 -> b <> 0%Z -> c <> 0 ->
    start_lr (__init__ its max (Some a) (Some b) (Some c)) = a /\
    last_iterations (__init__ its max (Some a) (Some b) (Some c)) = b /\
    half_iteration (__init__ its max (Some a) (Some b) (Some c))
    = ((its - b) / 2)%Z /\
    last_lr (__init__ its max (Some a) (Some b) (Some c)) = c.
Proof.
  assert (Hzero : Py.truthy 0 = false).
  { unfold Py.truthy, Py.Truthy_R. destruct (Req_dec_T 0 0) as [_ | N];
      [reflexivity | exfalso; now apply N]. }
  assert (Hnz : forall r : R, r <> 0 -> Py.truthy r = true).
  { intros r Hr. unfold Py.truthy, Py.Truthy_R.
    destruct (Req_dec_T r 0) as [E | _]; [contradiction | reflexivity]. }
  split.
  { unfold __init__, Py.or_. rewrite Hzero. reflexivity. }
  split; [reflexivity |]. split; [reflexivity |]. split; [reflexivity |].
  intros a c b Ha Hb Hc.
  assert (Hbz : Py.truthy b = true).
  { unfold Py.truthy, Py.Truthy_Z. destruct (Z.eqb_spec b 0);
      [contradiction | reflexivity]. }
  unfold __init__, Py.or_. cbn [start_lr last_iterations half_iteration last_lr].
  rewrite (Hnz a Ha), (Hnz c Hc), Hbz. repeat split.
Qed.

Lemma one_cycle_init_falsy_arguments_witness :
  start_lr (__init__ 25 1 (Some (1 / 2)) (Some 5%Z) (Some (1 / 4))) = 1 / 2 /\
  last_lr (__init__ 25 1 (Some (1 / 2)) (Some 5%Z) (Some (1 / 4))) = 1 / 4.
Proof.
  destruct (one_cycle_init_falsy_arguments 25 1)
    as (_ & _ & _ & _ & Hkept).
  destruct (Hkept (1 / 2) (1 / 4) 5%Z) as (Ha & _ & _ & Hc).
  - lra.
  - discriminate.
  - lra.
  - split; [exact Ha | exact Hc].
Defined.

End OneCycleShape.

(** ** [OneCycleScheduler] as a callback of a whole training run *)

Section OneCycleRun.
Import Keras OneCycleScheduler.
Variables W I : Type.
Variable train_step : Z -> Z -> Model W I -> W * I * R.

Lemma rate_at_set_iteration (s : t) (i j : Z) :
  rate_at (set_iteration s i) j = rate_at s j.
Proof. reflexivity. Qed.

Lemma set_iteration_twice (s : t) (i j : Z) :
  set_iteration (set_iteration s i) j = set_iteration s j.
Proof. reflexivity. Qed.

Lemma line_through_before_end (x1 : Z) (y1 : R) (x2 : Z) (y2 : R) (x : Z) :
  (x1 < x2)%Z -> (x1 <= x < x2)%Z -> y2 < y1 ->
  y2 < line_through x1 y1 x2 y2 x.
Proof.
  intros Hlt Hx Hy. unfold line_through.
  assert (Hd : 0 < IZR (x2 - x1)) by (apply IZR_lt; lia).
  assert (Hn : IZR (x - x1) < IZR (x2 - x1)) by (apply IZR_lt; lia).
  pose proof (Rinv_0_lt_compat _ Hd) as Hinv.
  assert (Hone : IZR (x2 - x1) * / IZR (x2 - x1) = 1)
    by (apply Rinv_r; lra).
  assert (Ht : IZR (x - x1) / IZR (x2 - x1) < 1) by (unfold Rdiv; nra).
  nra.
Qed.

(** The batches of one epoch: each one advances the counter, and the
    model leaves the epoch with the rate of its last batch. *)
Lemma fit_batches_one_cycle (n : nat) :
  forall (epoch b : Z) (sum : R) (s : t) (m : Model W I),
    (0 <= half_iteration s)%Z ->
    (2 * half_iteration s < iterations s)%Z ->
    (0 <= iteration s)%Z ->
    exists m' : Model W I,
      fit_batches callback train_step n epoch b sum s m
      = Some (set_iteration s (iteration s + Z.of_nat n), m') /\
      ((0 < n)%nat ->
       rate_at s (iteration s + Z.of_nat n - 1) = Some (learning_rate m')) /\
      (n = 0%nat -> m' = m).
Proof.
  induction n as [| n IH]; intros epoch b sum s m Hhalf Hlast Hi.
  - exists m. cbn [fit_batches]. rewrite Z.add_0_r, set_iteration_same.
    repeat split. intros H. lia.
  - cbn [fit_batches callback Keras.on_batch_begin Keras.on_batch_end].
    unfold on_batch_begin.
    assert (Hrate : batch_lr s = rate_at s (iteration s))
      by (unfold rate_at; now rewrite set_iteration_same).
    rewrite Hrate, rate_at_branches by lia. cbn [Py.bind].
    match goal with
    | |- context [assign_learning_rate m ?lr] => set (rate := lr)
    end.
    destruct (train_step epoch b (assign_learning_rate m rate))
      as [[w i] loss].
    unfold pass at 1. cbn [Py.bind learning_rate assign_learning_rate].
    destruct (IH epoch (b + 1)%Z (sum + loss)
                 (set_iteration s (iteration s + 1)) (mkModel w rate i))
      as (m' & Hrun & Hlr & Hsame); try assumption.
    { cbn [iteration set_iteration]. lia. }
    exists m'. rewrite Hrun.
    cbn [iteration set_iteration half_iteration iterations] in *.
    rewrite set_iteration_twice.
    replace (iteration s + 1 + Z.of_nat n)%Z
      with (iteration s + Z.of_nat (S n))%Z in * by lia.
    split; [reflexivity |]. split; [| discriminate].
    intros _. destruct (Nat.eq_0_gt_0_cases n) as [E | Hgt].
    + rewrite (Hsame E). cbn [learning_rate].
      replace (iteration s + Z.of_nat (S n) - 1)%Z with (iteration s) by lia.
      rewrite rate_at_branches by lia. reflexivity.
    + rewrite <- Hlr by exact Hgt. symmetry. apply rate_at_set_iteration.
Qed.

Lemma fit_epochs_one_cycle (steps n : nat) :
  forall (epoch : Z) (s : t) (m : Model W I),
    (0 <= half_iteration s)%Z ->
    (2 * half_iteration s < iterations s)%Z ->
    (0 <= iteration s)%Z ->
    exists m' : Model W I,
      fit_epochs callback train_step n epoch steps s m
      = Some (set_iteration s (iteration s + Z.of_nat (n * steps)), m') /\
      ((0 < n * steps)%nat ->
       rate_at s (iteration s + Z.of_nat (n * steps) - 1)
       = Some (learning_rate m')) /\
      ((n * steps = 0)%nat -> m' = m).
Proof.
  induction n as [| n IH]; intros epoch s m Hhalf Hlast Hi.
  - exists m. cbn [fit_epochs Nat.mul]. rewrite Z.add_0_r, set_iteration_same.
    repeat split. intros H. lia.
  - cbn [fit_epochs callback Keras.on_epoch_begin]. unfold pass at 1.
    cbn [Py.bind].
    destruct (fit_batches_one_cycle steps epoch 0 0 s m Hhalf Hlast Hi)
      as (m1 & Hrun1 & Hlr1 & Hsame1).
    fold (@callback W I). rewrite Hrun1. cbn [Py.bind].
    destruct (IH (epoch + 1)%Z (set_iteration s (iteration s + Z.of_nat steps))
                 m1)
      as (m' & Hrun & Hlr & Hsame); try assumption.
    { cbn [iteration set_iteration]. lia. }
    exists m'. rewrite Hrun.
    cbn [iteration set_iteration half_iteration iterations] in *.
    rewrite set_iteration_twice.
    replace (iteration s + Z.of_nat steps + Z.of_nat (n * steps))%Z
      with (iteration s + Z.of_nat (S n * steps))%Z in * by lia.
    split; [reflexivity |]. split.
    + intros Hpos. destruct (Nat.eq_0_gt_0_cases (n * steps)) as [E | Hgt].
      * rewrite (Hsame E).
        replace (S n * steps)%nat with steps in * by lia.
        apply Hlr1. lia.
      * rewrite <- Hlr by exact Hgt. symmetry. apply rate_at_set_iteration.
    + intros E. rewrite Hsame by lia. apply Hsame1. lia.
Qed.

(** X6: a scheduler built for [ceil(len(X) / batch_size) * epochs]
    iterations, with [last_iterations] at its default, gets through the
    whole of [model.fit(X, epochs, batch_size, callbacks=[onecycle])]: no
    batch raises, the counter ends at [iterations], and the model is left
    with the rate of the last batch, which is still above [last_lr] when
    [last_lr < start_lr]. *)
Theorem one_cycle_full_run (model : Model W I) (len_X epochs batch_size : Z)
    (max_lr : R) (start_lr last_lr : option R) :
  (0 < len_X)%Z -> (0 < epochs)%Z -> (0 < batch_size)%Z ->
  exists (steps : Z) (m' : Model W I),
    Py.ceil_div len_X batch_size = Some steps /\
    let s := __init__ (steps * epochs) max_lr start_lr None last_lr in
    fit callback train_step len_X epochs batch_size s model
    = Some (set_iteration s (steps * epochs), m') /\
    rate_at s (steps * epochs - 1) = Some (learning_rate m') /\
    (OneCycleScheduler.last_lr s < OneCycleScheduler.start_lr s ->
     OneCycleScheduler.last_lr s < learning_rate m').
Proof.
  intros Hlen Hepochs Hbs.
  destruct (ceil_div_positive len_X batch_size Hlen Hbs)
    as (steps & Hsteps & Hpos & _).
  assert (Hits : (1 <= steps * epochs)%Z) by lia.
  destruct (default_half_iteration_bounds (steps * epochs) Hits)
    as [Hhalf Hd].
  set (s := __init__ (steps * epochs) max_lr start_lr None last_lr).
  assert (Ehalf : half_iteration s
                  = ((steps * epochs - (steps * epochs / 10 + 1)) / 2)%Z)
    by reflexivity.
  assert (Eits : iterations s = (steps * epochs)%Z) by reflexivity.
  assert (Ei : iteration s = 0%Z) by reflexivity.
  destruct (fit_epochs_one_cycle (Z.to_nat steps) (Z.to_nat epochs) 0 s model)
    as (m' & Hrun & Hlr & _); try lia.
  assert (Hn : Z.of_nat (Z.to_nat epochs * Z.to_nat steps)
               = (steps * epochs)%Z).
  { rewrite Nat2Z.inj_mul, !Z2Nat.id by lia. lia. }
  rewrite Ei, Hn in Hrun, Hlr. rewrite Z.add_0_l in Hrun, Hlr.
  assert (Hrate : rate_at s (steps * epochs - 1) = Some (learning_rate m')).
  { apply Hlr. lia. }
  exists steps, m'. split; [exact Hsteps |]. fold s. cbv zeta.
  split.
  { unfold fit. destruct (Z.leb_spec batch_size 0); [lia |].
    rewrite Hsteps. exact Hrun. }
  split; [exact Hrate |].
  intros Hls.
  pose proof (rate_annealing s (steps * epochs - 1) ltac:(lia) ltac:(lia)
                ltac:(lia)) as Hann.
  assert (E : learning_rate m'
              = line_through (2 * half_iteration s)
                  (OneCycleScheduler.start_lr s) (iterations s)
                  (OneCycleScheduler.last_lr s) (steps * epochs - 1))
    by congruence.
  rewrite E. apply line_through_before_end; [lia | lia | exact Hls].
Qed.

End OneCycleRun.

Lemma one_cycle_full_run_witness :
  exists (steps : Z) (m' : Keras.Model unit unit),
    Py.ceil_div 64 32 = Some steps /\
    Keras.fit OneCycleScheduler.callback idle_step 64 25 32
      (OneCycleScheduler.__init__ (steps * 25) (1 / 10) None None None)
      (Keras.mkModel tt (1 / 100) tt)
    = Some (OneCycleScheduler.set_iteration
              (OneCycleScheduler.__init__ (steps * 25) (1 / 10) None None None)
              (steps * 25), m').
Proof.
  destruct (one_cycle_full_run unit unit idle_step
              (Keras.mkModel tt (1 / 100) tt) 64 25 32 (1 / 10) None None)
    as (steps & m' & Hsteps & Hfit & _); try lia.
  exists steps, m'. split; [exact Hsteps | exact Hfit].
Defined.

(** ** [ExponentialLearningRate] and [find_learning_rate]: errors, losses
       and rates *)

Section RangeTestMore.
Import Keras ExponentialLearningRate.
Variables W I : Type.
Variable train_step : Z -> Z -> Model W I -> W * I * R.

(** X7: [on_batch_end] raises exactly when [logs] has no ["loss"] entry
    ([logs] is [None] or lacks the key) or when no epoch has begun yet, so
    that [sum_of_epoch_losses] is unset; in particular a callback fresh
    from [__init__] raises on its first [on_batch_end]. *)
Theorem on_batch_end_raises_iff (self : t) (model : Model W I) (batch : Z)
    (logs : Logs) :
  (on_batch_end self model batch logs = None <->
   getitem logs "loss" = None \/ sum_of_epoch_losses self = None) /\
  on_batch_end self model batch None = None /\
  on_batch_end self model batch (Some []) = None /\
  on_batch_end (__init__ (factor self)) model batch logs = None.
Proof.
  split; [| split; [reflexivity | split; [reflexivity |]]].
  - unfold on_batch_end.
    destruct (getitem logs "loss") as [mean |] eqn:Hget;
      destruct (sum_of_epoch_losses self) as [old |] eqn:Hsum;
      cbn [Py.bind]; split; intros H; try reflexivity; try discriminate;
      try (now left); try (now right).
    destruct H; discriminate.
  - unfold on_batch_end. cbn [sum_of_epoch_losses __init__].
    destruct (getitem logs "loss"); reflexivity.
Qed.

Lemma mean_times_count (sum loss : R) (b : Z) :
  (0 <= b)%Z -> (sum + loss) / IZR (b + 1) * IZR (b + 1) = sum + loss.
Proof. intros Hb. field. apply IZR_neq0. lia. Qed.

(** Under [fit], the callback recovers the loss of every batch. *)
Lemma fit_batches_losses (n : nat) :
  forall (epoch b : Z) (sum : R) (self : t) (model mfin : Model W I)
         (ls : list R),
    (0 <= b)%Z ->
    sum_of_epoch_losses self = Some sum ->
    epoch_losses train_step (factor self) n epoch b model = (ls, mfin) ->
    exists self' : t,
      fit_batches callback train_step n epoch b sum self model
      = Some (self', mfin) /\
      factor self' = factor self /\
      losses self' = losses self ++ ls.
Proof.
  induction n as [| n IH]; intros epoch b sum self model mfin ls Hb Hsum Hls.
  - cbn [epoch_losses] in Hls. injection Hls as <- <-.
    exists self. cbn [fit_batches]. rewrite app_nil_r. repeat split.
  - cbn [epoch_losses] in Hls.
    cbn [fit_batches callback Keras.on_batch_begin Keras.on_batch_end pass
           Py.bind].
    destruct (train_step epoch b model) as [[w i] loss].
    destruct (epoch_losses train_step (factor self) n epoch (b + 1)
                {| weights := w;
                   learning_rate := learning_rate model * factor self;
                   internals := i |}) as [ls' m''] eqn:Hrest.
    injection Hls as <- <-.
    unfold on_batch_end. rewrite getitem_loss, Hsum.
    cbn [Py.bind learning_rate assign_learning_rate weights internals].
    rewrite mean_times_count by exact Hb.
    match goal with
    | |- context [fit_batches _ _ n epoch (b + 1) (sum + loss) ?s1 ?m1] =>
        destruct (IH epoch (b + 1)%Z (sum + loss) s1 m1 m'' ls')
          as (self' & Hrun & Hf & Hlosses);
          [lia | reflexivity | exact Hrest |]
    end.
    exists self'. cbn [factor losses] in *.
    split; [exact Hrun |]. split; [exact Hf |].
    rewrite Hlosses, <- app_assoc. cbn [app].
    replace (sum + loss - sum) with loss by ring. reflexivity.
Qed.

Lemma fit_epochs_losses (steps n : nat) :
  forall (epoch : Z) (self : t) (model mfin : Model W I) (ls : list R),
    run_losses train_step (factor self) n epoch steps model = (ls, mfin) ->
    exists self' : t,
      fit_epochs callback train_step n epoch steps self model
      = Some (self', mfin) /\
      factor self' = factor self /\
      losses self' = losses self ++ ls.
Proof.
  induction n as [| n IH]; intros epoch self model mfin ls Hls.
  - cbn [run_losses] in Hls. injection Hls as <- <-.
    exists self. cbn [fit_epochs]. rewrite app_nil_r. repeat split.
  - cbn [run_losses] in Hls.
    destruct (epoch_losses train_step (factor self) steps epoch 0 model)
      as [ls1 m1] eqn:H1.
    destruct (run_losses train_step (factor self) n (epoch + 1) steps m1)
      as [ls2 m2] eqn:H2.
    injection Hls as <- <-.
    cbn [fit_epochs callback Keras.on_epoch_begin on_epoch_begin Py.bind].
    match goal with
    | |- context [fit_batches _ _ steps epoch 0 0 ?s1 model] =>
        destruct (fit_batches_losses steps epoch 0 0 s1 model m1 ls1)
          as (s2 & Hrun1 & Hf1 & Hl1);
          [lia | reflexivity | exact H1 |]
    end.
    fold (@callback W I). rewrite Hrun1. cbn [Py.bind].
    cbn [factor losses] in *.
    destruct (IH (epoch + 1)%Z s2 m1 m2 ls2) as (self' & Hrun & Hf & Hl).
    { rewrite Hf1. exact H2. }
    exists self'. split; [exact Hrun |]. split; [congruence |].
    rewrite Hl, Hl1, app_assoc. reflexivity.
Qed.

(** X8: in exact arithmetic, when [batch_size] divides [len(X)], so that
    every batch has [batch_size] samples and the sample-weighted running
    mean Keras reports is the plain mean of the batch losses, the losses
    [find_learning_rate] returns are the losses of the individual training
    steps of the run, in order, over all epochs; the step for batch [k] is
    taken at the rate [min_rate * factor ^ k]. *)
Theorem find_learning_rate_losses (model model' : Model W I)
    (len_X epochs batch_size : Z) (min_rate max_rate : R)
    (rs ls : list R) :
  (0 < batch_size)%Z -> (len_X mod batch_size = 0)%Z ->
  find_learning_rate train_step model len_X epochs batch_size
                     min_rate max_rate
  = Some (model', (rs, ls)) ->
  exists (steps : Z) (f : R),
    Py.ceil_div len_X batch_size = Some steps /\
    (steps * batch_size = len_X)%Z /\
    probe_factor (steps * epochs) min_rate max_rate = Some f /\
    ls = fst (run_losses train_step f (Z.to_nat epochs) 0 (Z.to_nat steps)
                (assign_learning_rate model min_rate)).
Proof.
  intros Hbs Hdiv.
  unfold find_learning_rate, find_learning_rate_fit, probe_iterations, fit.
  destruct (Py.ceil_div len_X batch_size) as [steps |] eqn:Hsteps;
    [| discriminate].
  cbn [Py.bind].
  destruct (probe_factor (steps * epochs) min_rate max_rate) as [f |]
    eqn:Hfactor; [| discriminate].
  cbn [Py.bind].
  destruct (batch_size <=? 0)%Z; [discriminate |].
  destruct (run_losses train_step f (Z.to_nat epochs) 0 (Z.to_nat steps)
              (assign_learning_rate model min_rate)) as [ls0 mfin] eqn:Hrun.
  destruct (fit_epochs_losses (Z.to_nat steps) (Z.to_nat epochs) 0
              (__init__ f) (assign_learning_rate model min_rate) mfin ls0
              Hrun) as (self' & Hfit & _ & Hl).
  rewrite Hfit. cbn [Py.bind]. intros Heq. injection Heq as _ _ <-.
  exists steps, f. split; [reflexivity |]. split.
  { unfold Py.ceil_div in Hsteps.
    destruct (Z.eqb_spec batch_size 0) as [E | _]; [lia |].
    injection Hsteps as <-.
    rewrite Z.div_opp_l_z by (exact Hdiv || lia).
    pose proof (Z.div_mod len_X batch_size ltac:(lia)) as Hdm.
    rewrite Hdiv in Hdm. lia. }
  split; [exact Hfactor |].
  rewrite Hrun, Hl. reflexivity.
Qed.

(** X9: [find_learning_rate] raises on an empty data set, on zero epochs,
    on a zero batch size and on a zero [min_rate] (a division by zero in
    [iterations] or [factor]); it raises before the model is touched. *)
Theorem find_learning_rate_degenerate (model : Model W I)
    (len_X epochs batch_size : Z) (min_rate max_rate : R) :
  len_X = 0%Z \/ epochs = 0%Z \/ batch_size = 0%Z \/ min_rate = 0 ->
  (probe_iterations len_X epochs batch_size = None \/
   exists iterations : Z,
     probe_iterations len_X epochs batch_size = Some iterations /\
     probe_factor iterations min_rate max_rate = None) /\
  find_learning_rate train_step model len_X epochs batch_size
                     min_rate max_rate = None.
Proof.
  intros Hdeg. unfold find_learning_rate, find_learning_rate_fit.
  destruct (probe_iterations len_X epochs batch_size) as [its |] eqn:Hits;
    [| split; [now left | reflexivity]].
  assert (Hfactor : probe_factor its min_rate max_rate = None).
  { unfold probe_factor, Py.div at 1.
    destruct (Req_dec_T min_rate 0) as [E | Hmin]; [reflexivity |].
    cbn [Py.bind].
    assert (E : its = 0%Z).
    { unfold probe_iterations, Py.ceil_div in Hits.
      destruct (Z.eqb_spec batch_size 0) as [Hb | Hb]; [discriminate |].
      cbn [Py.bind] in Hits. injection Hits as <-.
      destruct Hdeg as [-> | [-> | [Hb0 | Hm0]]];
        [reflexivity | lia | contradiction | contradiction]. }
    rewrite E, div_by_zero. reflexivity. }
  split.
  - right. exists its. split; [reflexivity | exact Hfactor].
  - cbn [Py.bind]. rewrite Hfactor. reflexivity.
Qed.

End RangeTestMore.

Lemma find_learning_rate_losses_witness :
  exists (model' : Keras.Model unit unit) (rs ls : list R) (steps : Z) (f : R),
    find_learning_rate idle_step (Keras.mkModel tt (1 / 1000) tt) 64 1 32
                       (1 / 10000) 1
    = Some (model', (rs, ls)) /\
    ls = fst (run_losses idle_step f (Z.to_nat 1) 0 (Z.to_nat steps)
                (Keras.assign_learning_rate (Keras.mkModel tt (1 / 1000) tt)
                                            (1 / 10000))).
Proof.
  destruct (find_learning_rate_fit_returns unit unit idle_step
              (Keras.mkModel tt (1 / 1000) tt) 64 1 32 (1 / 10000) 1)
    as (steps0 & exp_lr & model_fit & _ & _ & _ & Hfit); try lia; try lra.
  assert (Hret : find_learning_rate idle_step (Keras.mkModel tt (1 / 1000) tt)
                   64 1 32 (1 / 10000) 1
                 = Some (Keras.set_weights
                           (Keras.assign_learning_rate model_fit (1 / 1000)) tt,
                         (ExponentialLearningRate.rates exp_lr,
                          ExponentialLearningRate.losses exp_lr))).
  { unfold find_learning_rate. rewrite Hfit. reflexivity. }
  destruct (find_learning_rate_losses unit unit idle_step _ _ 64%Z 1%Z 32%Z
              _ _ _ _ ltac:(lia) eq_refl Hret)
    as (steps & f & _ & _ & _ & Hls).
  eexists. eexists. eexists. exists steps, f.
  split; [exact Hret | exact Hls].
Defined.

Lemma find_learning_rate_degenerate_witness :
  find_learning_rate idle_step (Keras.mkModel tt (1 / 1000) tt) 0 1 32
                     (1 / 10000) 1 = None.
Proof.
  apply (find_learning_rate_degenerate unit unit idle_step
           (Keras.mkModel tt (1 / 1000) tt) 0 1 32 (1 / 10000) 1).
  left. reflexivity.
Defined.

Section RangeTestRates.
Import Keras ExponentialLearningRate.
Variables W I : Type.
Variable train_step : Z -> Z -> Model W I -> W * I * R.

(** The range test on its intended inputs, in one statement. *)
Lemma range_test_rates (model : Model W I) (len_X epochs batch_size : Z)
    (min_rate max_rate : R) :
  (0 < len_X)%Z -> (0 < epochs)%Z -> (0 < batch_size)%Z ->
  0 < min_rate -> 0 < max_rate ->
  exists (steps : Z) (exp_lr : t) (model' : Model W I),
    Py.ceil_div len_X batch_size = Some steps /\
    (0 < steps * epochs)%Z /\
    rates exp_lr
    = geometric min_rate
        (Rpower (max_rate / min_rate) (1 / IZR (steps * epochs)))
        (Z.to_nat (steps * epochs)) /\
    length (losses exp_lr) = Z.to_nat (steps * epochs) /\
    Rpower (max_rate / min_rate) (1 / IZR (steps * epochs))
    ^ Z.to_nat (steps * epochs) = max_rate / min_rate /\
    find_learning_rate train_step model len_X epochs batch_size
                       min_rate max_rate
    = Some (model', (rates exp_lr, losses exp_lr)).
Proof.
  intros Hlen Hepochs Hbs Hmin Hmax.
  destruct (find_learning_rate_fit_returns W I train_step model len_X epochs
              batch_size min_rate max_rate Hlen Hepochs Hbs Hmin Hmax)
    as (steps & exp_lr & model_fit & Hsteps & Hpos & Hfactor & Hfit).
  destruct (find_learning_rate_fit_inv W I train_step model len_X epochs
              batch_size min_rate max_rate exp_lr model_fit Hfit)
    as (steps' & f & Hsteps' & Hfactor' & _ & Hrates & Hlosses & _).
  assert (steps' = steps) by congruence. subst steps'.
  assert (Ef : f = Rpower (max_rate / min_rate) (1 / IZR (steps * epochs)))
    by congruence.
  assert (Hn : (Z.to_nat epochs * Z.to_nat steps)%nat
               = Z.to_nat (steps * epochs)).
  { rewrite Z2Nat.inj_mul by lia. lia. }
  rewrite Hn, Ef in Hrates. rewrite Hn in Hlosses.
  exists steps, exp_lr,
    (set_weights (assign_learning_rate model_fit (learning_rate model))
                 (weights model)).
  split; [exact Hsteps |]. split; [lia |]. split; [exact Hrates |].
  split; [exact Hlosses |]. split.
  - apply root_power; [| lia]. apply Rdiv_lt_0_compat; assumption.
  - unfold find_learning_rate. rewrite Hfit. reflexivity.
Qed.

Lemma root_above_one (x : R) (n : Z) :
  1 < x -> (0 < n)%Z -> 1 < Rpower x (1 / IZR n).
Proof.
  intros Hx Hn.
  rewrite <- (Rpower_O x) at 1 by lra.
  apply Rpower_lt; [exact Hx |].
  apply Rdiv_lt_0_compat; [lra | apply IZR_lt; lia].
Qed.

(** The recorded rates for [0 < min_rate < max_rate]. *)
Lemma range_test_rate_facts (model : Model W I)
    (len_X epochs batch_size : Z) (min_rate max_rate : R) :
  (0 < len_X)%Z -> (0 < epochs)%Z -> (0 < batch_size)%Z ->
  0 < min_rate -> min_rate < max_rate ->
  exists (model' : Model W I) (rs ls : list R),
    find_learning_rate train_step model len_X epochs batch_size
                       min_rate max_rate
    = Some (model', (rs, ls)) /\
    length rs = length ls /\
    (0 < length rs)%nat /\
    nth 0 rs 0 = min_rate /\
    (forall k : nat,
       (S k < length rs)%nat -> nth k rs 0 < nth (S k) rs 0) /\
    (forall k : nat,
       (k < length rs)%nat -> min_rate <= nth k rs 0 < max_rate).
Proof.
  intros Hlen Hepochs Hbs Hmin Hlt.
  destruct (range_test_rates model len_X epochs batch_size min_rate max_rate
              Hlen Hepochs Hbs Hmin ltac:(lra))
    as (steps & exp_lr & model' & _ & Hits & Hrates & Hlosses & Hroot & Hret).
  set (f := Rpower (max_rate / min_rate) (1 / IZR (steps * epochs))) in *.
  set (n := Z.to_nat (steps * epochs)) in *.
  assert (Hratio : 1 < max_rate / min_rate).
  { apply (Rmult_lt_reg_r min_rate); [exact Hmin |].
    unfold Rdiv. rewrite Rmult_assoc, Rinv_l by lra. lra. }
  assert (Hf : 1 < f) by (apply root_above_one; assumption).
  assert (Hpow : forall k : nat, 0 < f ^ k) by (intros k; apply pow_lt; lra).
  assert (Hmax : max_rate = min_rate * f ^ n).
  { rewrite Hroot. field. lra. }
  assert (Hn : (0 < n)%nat) by (unfold n; lia).
  exists model', (rates exp_lr), (losses exp_lr).
  split; [exact Hret |]. rewrite Hrates, geometric_length.
  split; [now rewrite Hlosses |]. split; [exact Hn |].
  split; [rewrite geometric_nth by exact Hn; simpl; ring |].
  split.
  - intros k Hk. rewrite !geometric_nth by lia.
    apply Rmult_lt_compat_l; [exact Hmin |].
    apply Rlt_pow; [exact Hf | lia].
  - intros k Hk. rewrite geometric_nth by exact Hk. split.
    + pose proof (pow_R1_Rle f k ltac:(lra)). nra.
    + rewrite Hmax. apply Rmult_lt_compat_l; [exact Hmin |].
      apply Rlt_pow; [exact Hf | exact Hk].
Qed.

(** X10: for [0 < min_rate < max_rate] the rates the range test records
    start at [min_rate], increase strictly from batch to batch and stay
    below [max_rate]. *)
Theorem range_test_rates_increasing (model : Model W I)
    (len_X epochs batch_size : Z) (min_rate max_rate : R) :
  (0 < len_X)%Z -> (0 < epochs)%Z -> (0 < batch_size)%Z ->
  0 < min_rate -> min_rate < max_rate ->
  exists (model' : Model W I) (rs ls : list R),
    find_learning_rate train_step model len_X epochs batch_size
                       min_rate max_rate
    = Some (model', (rs, ls)) /\
    nth 0 rs 0 = min_rate /\
    (forall k : nat,
       (S k < length rs)%nat -> nth k rs 0 < nth (S k) rs 0) /\
    (forall k : nat,
       (k < length rs)%nat -> min_rate <= nth k rs 0 < max_rate).
Proof.
  intros Hlen Hepochs Hbs Hmin Hlt.
  destruct (range_test_rate_facts model len_X epochs batch_size min_rate
              max_rate Hlen Hepochs Hbs Hmin Hlt)
    as (model' & rs & ls & Hret & _ & _ & Hfirst & Hinc & Hbound).
  exists model', rs, ls. repeat split; try assumption; now apply Hbound.
Qed.

End RangeTestRates.

Lemma range_test_rates_increasing_witness :
  exists (model' : Keras.Model unit unit) (rs ls : list R),
    find_learning_rate idle_step (Keras.mkModel tt (1 / 1000) tt) 64 1 32
                       (1 / 10000) 1
    = Some (model', (rs, ls)) /\
    nth 0 rs 0 = 1 / 10000.
Proof.
  destruct (range_test_rates_increasing unit unit idle_step
              (Keras.mkModel tt (1 / 1000) tt) 64 1 32 (1 / 10000) 1)
    as (model' & rs & ls & Hret & Hfirst & _); try lia; try lra.
  exists model', rs, ls. split; [exact Hret | exact Hfirst].
Defined.

(** X11: the rates [find_learning_rate] returns, and whether it returns at
    all, depend only on the size of the data, [epochs], [batch_size],
    [min_rate] and [max_rate]: not on the model, its weights or learning
    rate, nor on what the training steps do. *)
Theorem find_learning_rate_rates_independent
    (W1 I1 W2 I2 : Type)
    (train1 : Z -> Z -> Keras.Model W1 I1 -> W1 * I1 * R)
    (train2 : Z -> Z -> Keras.Model W2 I2 -> W2 * I2 * R)
    (model1 : Keras.Model W1 I1) (model2 : Keras.Model W2 I2)
    (len_X epochs batch_size : Z) (min_rate max_rate : R) :
  option_map (fun r => fst (snd r))
    (find_learning_rate train1 model1 len_X epochs batch_size
                        min_rate max_rate)
  = option_map (fun r => fst (snd r))
      (find_learning_rate train2 model2 len_X epochs batch_size
                          min_rate max_rate).
Proof.
  unfold find_learning_rate, find_learning_rate_fit, probe_iterations,
    Keras.fit.
  destruct (Py.ceil_div len_X batch_size) as [steps |]; [| reflexivity].
  cbn [Py.bind].
  destruct (probe_factor (steps * epochs) min_rate max_rate) as [f |];
    [| reflexivity].
  cbn [Py.bind].
  destruct (batch_size <=? 0)%Z; [reflexivity |].
  destruct (fit_epochs_range_test W1 I1 train1 (Z.to_nat steps)
              (Z.to_nat epochs) 0 (ExponentialLearningRate.__init__ f)
              (Keras.assign_learning_rate model1 min_rate))
    as (s1 & m1 & Hrun1 & _ & Hrates1 & _).
  destruct (fit_epochs_range_test W2 I2 train2 (Z.to_nat steps)
              (Z.to_nat epochs) 0 (ExponentialLearningRate.__init__ f)
              (Keras.assign_learning_rate model2 min_rate))
    as (s2 & m2 & Hrun2 & _ & Hrates2 & _).
  rewrite Hrun1, Hrun2. cbn [Py.bind option_map snd fst].
  rewrite Hrates1, Hrates2. reflexivity.
Qed.

(** ** Cell 7: [plot_lr_vs_loss] *)

Section Plot.

Lemma min_from_spec (l : list R) :
  forall m : R,
    In (PySeq.min_from m l) (m :: l) /\
    forall x : R, In x (m :: l) -> PySeq.min_from m l <= x.
Proof.
  induction l as [| y l IH]; intros m.
  - simpl. split; [now left |]. intros x [<- | []]. lra.
  - cbn [PySeq.min_from].
    destruct (Rlt_dec y m) as [Hlt | Hge];
      [destruct (IH y) as [Hin Hle] | destruct (IH m) as [Hin Hle]].
    + split.
      * right. exact Hin.
      * intros x [<- | Hx].
        -- pose proof (Hle y (or_introl eq_refl)). lra.
        -- apply Hle. exact Hx.
    + split.
      * destruct Hin as [E | Hin]; [now left | right; now right].
      * intros x [<- | [<- | Hx]].
        -- apply Hle. now left.
        -- pose proof (Hle m (or_introl eq_refl)). lra.
        -- apply Hle. now right.
Qed.

Lemma max_from_spec (l : list R) :
  forall m : R,
    In (PySeq.max_from m l) (m :: l) /\
    forall x : R, In x (m :: l) -> x <= PySeq.max_from m l.
Proof.
  induction l as [| y l IH]; intros m.
  - simpl. split; [now left |]. intros x [<- | []]. lra.
  - cbn [PySeq.max_from].
    destruct (Rlt_dec m y) as [Hlt | Hge];
      [destruct (IH y) as [Hin Hle] | destruct (IH m) as [Hin Hle]].
    + split.
      * right. exact Hin.
      * intros x [<- | Hx].
        -- pose proof (Hle y (or_introl eq_refl)). lra.
        -- apply Hle. exact Hx.
    + split.
      * destruct Hin as [E | Hin]; [now left | right; now right].
      * intros x [<- | [<- | Hx]].
        -- apply Hle. now left.
        -- pose proof (Hle m (or_introl eq_refl)). lra.
        -- apply Hle. now right.
Qed.

Lemma min_spec (l : list R) (m : R) :
  PySeq.min l = Some m -> In m l /\ forall x : R, In x l -> m <= x.
Proof.
  destruct l as [| y l]; [discriminate |].
  cbn [PySeq.min]. intros E. injection E as <-. apply min_from_spec.
Qed.

Lemma max_spec (l : list R) (m : R) :
  PySeq.max l = Some m -> In m l /\ forall x : R, In x l -> x <= m.
Proof.
  destruct l as [| y l]; [discriminate |].
  cbn [PySeq.max]. intros E. injection E as <-. apply max_from_spec.
Qed.

(** What a successful call has drawn. *)
Lemma plot_figure (rates losses : list R) (fig : Figure) :
  plot_lr_vs_loss rates losses = Some fig ->
  exists lo hi m l0 : R,
    nth_error losses 0 = Some l0 /\
    curve fig = combine rates losses /\
    hline fig = (m, lo, hi) /\
    axis fig = (lo, hi, 0, l0 + m) /\
    length rates = length losses /\
    (In lo rates /\ forall r : R, In r rates -> lo <= r) /\
    (In hi rates /\ forall r : R, In r rates -> r <= hi) /\
    (In m losses /\ forall l : R, In l losses -> m <= l).
Proof.
  unfold plot_lr_vs_loss.
  destruct (Nat.eqb_spec (length rates) (length losses)) as [Hlen | _];
    [| discriminate].
  destruct (nth_error losses 0) as [l0 |]; [| discriminate].
  cbn [Py.bind].
  destruct (PySeq.min losses) as [m |] eqn:Hm; [| discriminate].
  cbn [Py.bind].
  destruct (PySeq.min rates) as [lo |] eqn:Hlo; [| discriminate].
  cbn [Py.bind].
  destruct (PySeq.max rates) as [hi |] eqn:Hhi; [| discriminate].
  cbn [Py.bind]. intros E. injection E as <-.
  exists lo, hi, m, l0. cbn [curve hline axis].
  repeat split; try reflexivity; try assumption;
    try (now apply min_spec); try (now apply max_spec).
Qed.

(** X12: [plot_lr_vs_loss] raises exactly when the two lists differ in
    length or are empty ([losses[0]] and [min] of an empty list). *)
Theorem plot_raises_iff (rates losses : list R) :
  plot_lr_vs_loss rates losses = None <->
  length rates <> length losses \/ losses = [].
Proof.
  unfold plot_lr_vs_loss.
  destruct (Nat.eqb_spec (length rates) (length losses)) as [Hlen | Hlen].
  - destruct losses as [| l0 losses].
    + split; [now right | reflexivity].
    + destruct rates as [| r0 rates]; [discriminate |].
      cbn [nth_error PySeq.min PySeq.max Py.bind].
      split; [discriminate |]. intros [H | H]; [contradiction | discriminate].
  - split; [now left | reflexivity].
Qed.

(** X13: in the figure of a successful call the x-range of the axis runs
    from the smallest to the largest rate, so every point of the curve
    lies inside it; the horizontal line is drawn at the smallest loss,
    across that whole range; the y-range is [0, losses[0] + min(losses)],
    which contains the line whenever the losses are not negative. *)
Theorem plot_figure_geometry (rates losses : list R) (fig : Figure) :
  plot_lr_vs_loss rates losses = Some fig ->
  exists lo hi m l0 : R,
    nth_error losses 0 = Some l0 /\
    hline fig = (m, lo, hi) /\
    axis fig = (lo, hi, 0, l0 + m) /\
    (forall r l : R, In (r, l) (curve fig) -> lo <= r <= hi /\ m <= l) /\
    In lo rates /\ In hi rates /\ In m losses /\
    (0 <= m -> 0 <= m <= l0 + m).
Proof.
  intros Hplot.
  destruct (plot_figure rates losses fig Hplot)
    as (lo & hi & m & l0 & Hl0 & Hcurve & Hline & Haxis & _
        & [Hlo_in Hlo] & [Hhi_in Hhi] & [Hm_in Hm]).
  exists lo, hi, m, l0.
  split; [exact Hl0 |]. split; [exact Hline |]. split; [exact Haxis |].
  split.
  { intros r l Hin. rewrite Hcurve in Hin.
    pose proof (in_combine_l _ _ _ _ Hin) as Hr.
    pose proof (in_combine_r _ _ _ _ Hin) as Hl.
    repeat split; [now apply Hlo | now apply Hhi | now apply Hm]. }
  split; [exact Hlo_in |]. split; [exact Hhi_in |]. split; [exact Hm_in |].
  intros Hpos.
  assert (Hfirst : m <= l0).
  { apply Hm. destruct losses as [| x losses]; [discriminate |].
    cbn [nth_error] in Hl0. injection Hl0 as <-. now left. }
  lra.
Qed.

Lemma plot_figure_geometry_witness :
  exists (fig : Figure) (lo hi m l0 : R),
    plot_lr_vs_loss [1; 2] [5; 3] = Some fig /\
    axis fig = (lo, hi, 0, l0 + m) /\
    In m [5; 3].
Proof.
  assert (Hsome : exists fig, plot_lr_vs_loss [1; 2] [5; 3] = Some fig).
  { unfold plot_lr_vs_loss. cbn. eexists. reflexivity. }
  destruct Hsome as [fig Hfig].
  destruct (plot_figure_geometry [1; 2] [5; 3] fig Hfig)
    as (lo & hi & m & l0 & _ & _ & Haxis & _ & _ & _ & Hm & _).
  exists fig, lo, hi, m, l0. repeat split; assumption.
Defined.

End Plot.

Section PlotRangeTest.
Import Keras.
Variables W I : Type.
Variable train_step : Z -> Z -> Model W I -> W * I * R.

(** X14: the result of a range test with [0 < min_rate < max_rate] can
    always be plotted: [plot_lr_vs_loss] does not raise on it, its x-axis
    starts at [min_rate] and ends below [max_rate]. *)
Theorem plot_of_range_test (model : Model W I)
    (len_X epochs batch_size : Z) (min_rate max_rate : R) :
  (0 < len_X)%Z -> (0 < epochs)%Z -> (0 < batch_size)%Z ->
  0 < min_rate -> min_rate < max_rate ->
  exists (model' : Model W I) (rs ls : list R) (fig : Figure)
         (hi ymax : R),
    find_learning_rate train_step model len_X epochs batch_size
                       min_rate max_rate
    = Some (model', (rs, ls)) /\
    plot_lr_vs_loss rs ls = Some fig /\
    axis fig = (min_rate, hi, 0, ymax) /\
    min_rate <= hi < max_rate.
Proof.
  intros Hlen Hepochs Hbs Hmin Hlt.
  destruct (range_test_rate_facts W I train_step model len_X epochs batch_size
              min_rate max_rate Hlen Hepochs Hbs Hmin Hlt)
    as (model' & rs & ls & Hret & Hsame & Hpos & Hfirst & _ & Hbound).
  destruct (plot_lr_vs_loss rs ls) as [fig |] eqn:Hplot.
  - destruct (plot_figure rs ls fig Hplot)
      as (lo & hi & m & l0 & _ & _ & _ & Haxis & _
          & [Hlo_in Hlo] & [Hhi_in _] & _).
    assert (Hall : forall r : R, In r rs -> min_rate <= r < max_rate).
    { intros r Hr. destruct (In_nth rs r 0 Hr) as (k & Hk & <-).
      now apply Hbound. }
    assert (Hmin_in : In min_rate rs).
    { rewrite <- Hfirst. apply nth_In. exact Hpos. }
    assert (Elo : lo = min_rate).
    { pose proof (Hlo _ Hmin_in). pose proof (Hall _ Hlo_in). lra. }
    exists model', rs, ls, fig, hi, (l0 + m).
    split; [exact Hret |]. split; [exact Hplot |].
    split; [now rewrite Haxis, Elo |].
    now apply Hall.
  - exfalso.
    assert (Hnone : length rs <> length ls \/ ls = []).
    { unfold plot_lr_vs_loss in Hplot.
      destruct (Nat.eqb_spec (length rs) (length ls)) as [_ | Hne];
        [| now left].
      destruct ls as [| l0 ls]; [now right |].
      destruct rs as [| r0 rs]; [discriminate |].
      cbn [nth_error PySeq.min PySeq.max Py.bind] in Hplot. discriminate. }
    destruct Hnone as [Hne | ->]; [contradiction |].
    simpl in Hsame. lia.
Qed.

End PlotRangeTest.

Lemma plot_of_range_test_witness :
  exists (model' : Keras.Model unit unit) (rs ls : list R) (fig : Figure),
    find_learning_rate idle_step (Keras.mkModel tt (1 / 1000) tt) 64 1 32
                       (1 / 10000) 1
    = Some (model', (rs, ls)) /\
    plot_lr_vs_loss rs ls = Some fig.
Proof.
  destruct (plot_of_range_test unit unit idle_step
              (Keras.mkModel tt (1 / 1000) tt) 64 1 32 (1 / 10000) 1)
    as (model' & rs & ls & fig & hi & ymax & Hret & Hplot & _);
    try lia; try lra.
  exists model', rs, ls, fig. split; [exact Hret | exact Hplot].
Defined.

(** ** Cell 1: the split into training and validation data *)

Section Split.
Variable A : Type.

Lemma slice_index_le (n : nat) (k : Z) : (PySeq.slice_index n k <= n)%nat.
Proof. unfold PySeq.slice_index. destruct (k <? 0)%Z; lia. Qed.

(** X15: slicing a sequence at any bound [k], negative or not, loses and
    duplicates nothing: [l[:k] + l[k:] == l].  For the notebook's split at
    [-5000] the validation part has the last [min(len, 5000)] items and
    the training part the [len - 5000] before them (none when there are
    fewer than 5000). *)
Theorem train_valid_split_partition (X_train_full : list A) :
  (forall k : Z,
     PySeq.slice_to k X_train_full ++ PySeq.slice_from k X_train_full
     = X_train_full) /\
  fst (train_valid_split X_train_full) ++ snd (train_valid_split X_train_full)
  = X_train_full /\
  length (fst (train_valid_split X_train_full))
  = (length X_train_full - 5000)%nat /\
  length (snd (train_valid_split X_train_full))
  = Nat.min (length X_train_full) 5000.
Proof.
  assert (Hidx : PySeq.slice_index (length X_train_full) (-5000)
                 = (length X_train_full - 5000)%nat).
  { unfold PySeq.slice_index. change (-5000 <? 0)%Z with true. cbv iota. lia. }
  split; [intros k; apply firstn_skipn |].
  split; [apply firstn_skipn |].
  unfold train_valid_split, PySeq.slice_to, PySeq.slice_from. cbn [fst snd].
  rewrite Hidx, length_firstn, length_skipn. lia.
Qed.

End Split.

(** ** [PowerScheduling]: the course of the schedule *)

Section PowerCourse.
Import PowerScheduling.

Lemma power_call_value (self : t) (step : Z) :
  (0 <= step)%Z -> 0 < step_param self ->
  __call__ self step
  = Some (initial_learning_rate self
          / Rpower (1 + IZR step / step_param self) (decay_rate self)).
Proof.
  intros Hstep Hs.
  pose proof (power_base_positive _ _ Hstep Hs) as Hbase.
  unfold __call__. rewrite div_defined by lra. cbn [Py.bind].
  rewrite pow_positive_base by exact Hbase. cbn [Py.bind].
  apply div_defined. unfold Rpower.
  pose proof (exp_pos (decay_rate self * ln (1 + IZR step / step_param self))).
  lra.
Qed.

(** X16: at step 0 the schedule returns [initial_learning_rate], whatever
    the decay rate and for every non-zero [step_param], negative ones
    included. *)
Theorem power_scheduling_start (self : t) :
  step_param self <> 0 ->
  __call__ self 0 = Some (initial_learning_rate self).
Proof.
  intros Hs. unfold __call__. rewrite div_defined by exact Hs.
  cbn [Py.bind].
  replace (1 + 0 / step_param self) with 1 by (field; exact Hs).
  rewrite pow_positive_base by lra. cbn [Py.bind].
  assert (E : Rpower 1 (decay_rate self) = 1).
  { unfold Rpower. now rewrite ln_1, Rmult_0_r, exp_0. }
  rewrite E, div_defined by lra. f_equal. field.
Qed.

Lemma power_scheduling_start_witness :
  __call__ (__init__ (1 / 10) 2 (-7)) 0 = Some (1 / 10).
Proof.
  apply (power_scheduling_start (__init__ (1 / 10) 2 (-7))).
  cbn. lra.
Defined.

(** X17: in exact real arithmetic (the rounding of the cast of the step
    to [float32], which merges neighbouring steps from 2^24 on, is outside
    the model), with a positive initial rate, step parameter and decay
    rate, the rate is positive, never above [initial_learning_rate], and
    strictly smaller at every later step. *)
Theorem power_scheduling_decreasing (self : t) (step1 step2 : Z) :
  0 < initial_learning_rate self -> 0 < step_param self ->
  0 < decay_rate self ->
  (0 <= step1 < step2)%Z ->
  exists lr1 lr2 : R,
    __call__ self step1 = Some lr1 /\
    __call__ self step2 = Some lr2 /\
    0 < lr2 /\ lr2 < lr1 /\ lr1 <= initial_learning_rate self.
Proof.
  intros Heta Hs Hc Hsteps.
  rewrite !power_call_value by (try lia; assumption).
  eexists. eexists. split; [reflexivity |]. split; [reflexivity |].
  set (b1 := 1 + IZR step1 / step_param self).
  set (b2 := 1 + IZR step2 / step_param self).
  assert (Hb1 : 1 <= b1).
  { unfold b1. assert (0 <= IZR step1) by (apply IZR_le; lia).
    assert (0 <= IZR step1 / step_param self).
    { unfold Rdiv. apply Rmult_le_pos; [assumption |].
      left. now apply Rinv_0_lt_compat. }
    lra. }
  assert (Hb12 : b1 < b2).
  { unfold b1, b2. assert (IZR step1 < IZR step2) by (apply IZR_lt; lia).
    pose proof (Rinv_0_lt_compat _ Hs). unfold Rdiv. nra. }
  assert (Hp1 : 1 <= Rpower b1 (decay_rate self)).
  { destruct Hb1 as [Hgt | <-].
    - left. rewrite <- (Rpower_O b1) by lra.
      apply Rpower_lt; assumption.
    - right. unfold Rpower. now rewrite ln_1, Rmult_0_r, exp_0. }
  assert (Hp12 : Rpower b1 (decay_rate self) < Rpower b2 (decay_rate self)).
  { apply Rlt_Rpower_l; [exact Hc | lra]. }
  set (p1 := Rpower b1 (decay_rate self)) in *.
  set (p2 := Rpower b2 (decay_rate self)) in *.
  assert (Hi1 : 0 < / p1) by (apply Rinv_0_lt_compat; lra).
  assert (Hi2 : 0 < / p2) by (apply Rinv_0_lt_compat; lra).
  assert (Hinv : / p2 < / p1) by (apply Rinv_lt_contravar; nra).
  assert (Hle1 : / p1 <= 1).
  { rewrite <- Rinv_1. apply Rinv_le_contravar; lra. }
  unfold Rdiv. repeat split; nra.
Qed.

Lemma power_scheduling_decreasing_witness :
  exists lr1 lr2 : R,
    __call__ (__init__ (1 / 10) 1 1000) 10 = Some lr1 /\
    __call__ (__init__ (1 / 10) 1 1000) 20 = Some lr2 /\
    lr2 < lr1.
Proof.
  destruct (power_scheduling_decreasing (__init__ (1 / 10) 1 1000) 10 20)
    as (lr1 & lr2 & H1 & H2 & _ & Hlt & _).
  - cbn. lra.
  - cbn. lra.
  - cbn. lra.
  - lia.
  - exists lr1, lr2. repeat split; assumption.
Defined.

(** X18: with [decay_rate = 1] the schedule is the hyperbola
    eta0 * s / (s + t); the rate has halved when the step equals
    [step_param]. *)
Theorem power_scheduling_linear_decay (self : t) (step : Z) :
  decay_rate self = 1 -> 0 < step_param self -> (0 <= step)%Z ->
  __call__ self step
  = Some (initial_learning_rate self * step_param self
          / (step_param self + IZR step)) /\
  (IZR step = step_param self ->
   __call__ self step = Some (initial_learning_rate self / 2)).
Proof.
  intros Hc Hs Hstep.
  pose proof (power_base_positive _ _ Hstep Hs) as Hbase.
  assert (Hpos : 0 <= IZR step) by (apply IZR_le; lia).
  rewrite power_call_value by assumption.
  rewrite Hc, Rpower_1 by exact Hbase.
  split.
  - f_equal. field. split; lra.
  - intros E. f_equal. rewrite E. field. lra.
Qed.

Lemma power_scheduling_linear_decay_witness :
  __call__ (__init__ (1 / 10) 1 1000) 1000 = Some (1 / 10 / 2).
Proof.
  apply (power_scheduling_linear_decay (__init__ (1 / 10) 1 1000) 1000).
  - reflexivity.
  - cbn. lra.
  - lia.
  - reflexivity.
Defined.

End PowerCourse.

(** ** The number of iterations and short runs *)

Section Iterations.
Import OneCycleScheduler.

(** X19: for a non-empty data set and a positive batch size,
    [math.ceil(len(X) / batch_size)] is the number of batches that just
    cover the data: one batch fewer would leave samples out.  It is
    [len(X) // batch_size] exactly when the batch size divides the number
    of samples, and [iterations] is that number times [epochs]. *)
Theorem probe_iterations_counts_batches (len_X epochs batch_size : Z) :
  (0 < len_X)%Z -> (0 < batch_size)%Z ->
  exists q : Z,
    Py.ceil_div len_X batch_size = Some q /\
    probe_iterations len_X epochs batch_size = Some (q * epochs)%Z /\
    ((q - 1) * batch_size < len_X <= q * batch_size)%Z /\
    (q = len_X / batch_size <-> len_X mod batch_size = 0)%Z /\
    (len_X mod batch_size <> 0 -> q = len_X / batch_size + 1)%Z.
Proof.
  intros Hlen Hbs.
  destruct (ceil_div_positive len_X batch_size Hlen Hbs)
    as (q & Hq & Hpos & Hceil).
  exists q. split; [exact Hq |].
  split; [unfold probe_iterations; now rewrite Hq |].
  pose proof (Z.div_mod len_X batch_size ltac:(lia)) as Hdm.
  pose proof (Z.mod_pos_bound len_X batch_size Hbs) as Hm.
  split; [lia |]. split; [split; intros H; nia | intros H; nia].
Qed.

Lemma probe_iterations_counts_batches_witness :
  exists q : Z,
    Py.ceil_div 55000 128 = Some q /\
    ((q - 1) * 128 < 55000 <= q * 128)%Z.
Proof.
  destruct (probe_iterations_counts_batches 55000 1 128)
    as (q & Hq & _ & Hcover & _); try lia.
  exists q. split; [exact Hq | exact Hcover].
Defined.

(** X20: a scheduler with the default [last_iterations] built for one or
    two iterations has [half_iteration = 0]: it never rises, every rate it
    assigns up to [iterations] is at most [start_lr], and with the default
    [start_lr] and a positive [max_lr] the peak [max_lr] is never
    reached. *)
Theorem one_cycle_short_run (its : Z) (max : R) (last : option R) (i : Z) :
  (1 <= its <= 2)%Z -> 0 < max -> (0 <= i <= its)%Z ->
  let s := __init__ its max None None last in
  half_iteration s = 0%Z /\
  start_lr s = max / 10 /\
  (last_lr s <= start_lr s ->
   exists lr : R, rate_at s i = Some lr /\ lr <= start_lr s /\ lr < max).
Proof.
  intros Hits Hmax Hi s.
  assert (Ehalf : half_iteration s = 0%Z).
  { change (half_iteration s) with ((its - (its / 10 + 1)) / 2)%Z.
    assert (E : (its / 10 = 0)%Z) by (apply Z.div_small; lia).
    rewrite E. destruct (Z.eq_dec its 1) as [-> | Hne]; [reflexivity |].
    assert (its = 2%Z) as -> by lia. reflexivity. }
  assert (Eits : iterations s = its) by reflexivity.
  split; [exact Ehalf |]. split; [reflexivity |].
  intros Hls.
  rewrite rate_annealing by (rewrite ?Ehalf, ?Eits; lia).
  eexists. split; [reflexivity |].
  rewrite Ehalf, Eits. unfold line_through.
  pose proof (line_through_fraction (2 * 0) its i ltac:(lia) ltac:(lia)).
  assert (Estart : start_lr s = max / 10) by reflexivity.
  split; [nra |]. rewrite Estart in *. nra.
Qed.

Lemma one_cycle_short_run_witness :
  half_iteration (__init__ 2 1 None None None) = 0%Z /\
  start_lr (__init__ 2 1 None None None) = 1 / 10.
Proof.
  destruct (one_cycle_short_run 2 1 None 1) as (Hhalf & Hstart & _).
  - lia.
  - lra.
  - lia.
  - split; [exact Hhalf | exact Hstart].
Defined.

End Iterations.
